(** * Rotary phone data entry: the dial decoder of [code.py]

    The program polls three input pins (hook switch, dial-active contact,
    digit-pulse contact), mirrors the hook switch on a status LED, counts
    the pulses of one dial rotation and sends the count, offset by [0x1d],
    to the USB HID keyboard.

    The embedding is a small-step machine.  Its control points are the loop
    tests of the source; the straight-line code between two loop tests is one
    step, written in a small state monad so that it reads like the Python.
    The pins are sampled from an environment that gives, for every pin, the
    value of its k-th read; every effect is appended to an event log. *)

From Stdlib Require Import String ZArith List Bool Lia Arith.
Import ListNotations.

(** ** Pins, events and the environment *)

(** The three [digitalio] inputs of the source ([oOffHook], [oDialActive],
    [oDigitPulse]). *)
Inductive pin : Type :=
| oOffHook
| oDialActive
| oDigitPulse.

(** Everything the program does to the outside world. *)
Inductive event : Type :=
| Read (p : pin) (v : bool)      (* [p.value] was read and gave [v] *)
| Sleep                          (* [time.sleep(0.005)] *)
| Led (v : bool)                 (* [oStatusLed.value = v] *)
| PrintStr (msg : string)        (* [print(msg)] *)
| PrintInt (n : Z)               (* [print(n)] *)
| KbdSend (keycode : Z)          (* [kbd.send(keycode)] *)
| KbdReleaseAll.                 (* [kbd.release_all()] *)

(** [e p k] is what the [k]-th read of pin [p] returns (counting from 0). *)
Definition env : Type := pin -> nat -> bool.

(** Control points: the loop tests of the main code. *)
Inductive label : Type :=
| Top            (* line 122, head of [while True] *)
| Sleeping       (* line 125, test of [while (not offHook)] *)
| WaitingToDial  (* line 131, test of [while (not dialActive)] *)
| DialIsActive   (* line 138, test of [while (dialActive)] *)
| PulseLow       (* line 143, test of [while (not digitPulse)] *)
| AfterPulse.     (* line 146, after the pulse [if] *)

(** The globals of the source, the LED output, the number of samples taken
    from each pin so far, and the event log (oldest event first). *)
Record state : Type := mkState {
  pc : label;
  dialActive : bool;
  digitPulse : bool;
  offHook : bool;
  digitCount : Z;
  numberToReturn : Z;
  oStatusLed : bool;
  nOffHook : nat;
  nDialActive : nat;
  nDigitPulse : nat;
  log : list event
}.

(** Lines 72-76: the globals start at 0; nothing has been read or written. *)
Definition initial : state :=
  mkState Top false false false 0%Z 0%Z false 0 0 0 [].

(** ** A small state monad *)

Definition M (A : Type) : Type := state -> A * state.

Definition ret {A : Type} (a : A) : M A := fun s => (a, s).

Definition bind {A B : Type} (m : M A) (f : A -> M B) : M B :=
  fun s => let (a, s') := m s in f a s'.

Notation "x <- m ;; k" := (bind m (fun x => k))
  (at level 61, m at next level, right associativity).
Notation "m ;; k" := (bind m (fun _ => k))
  (at level 61, right associativity).

Definition gets {A : Type} (f : state -> A) : M A := fun s => (f s, s).

Definition emit (ev : event) : M unit := fun s =>
  (tt, mkState (pc s) (dialActive s) (digitPulse s) (offHook s) (digitCount s)
         (numberToReturn s) (oStatusLed s) (nOffHook s) (nDialActive s)
         (nDigitPulse s) (log s ++ [ev])).

Definition goto (l : label) : M unit := fun s =>
  (tt, mkState l (dialActive s) (digitPulse s) (offHook s) (digitCount s)
         (numberToReturn s) (oStatusLed s) (nOffHook s) (nDialActive s)
         (nDigitPulse s) (log s)).

Definition set_dialActive (v : bool) : M unit := fun s =>
  (tt, mkState (pc s) v (digitPulse s) (offHook s) (digitCount s)
         (numberToReturn s) (oStatusLed s) (nOffHook s) (nDialActive s)
         (nDigitPulse s) (log s)).

Definition set_digitPulse (v : bool) : M unit := fun s =>
  (tt, mkState (pc s) (dialActive s) v (offHook s) (digitCount s)
         (numberToReturn s) (oStatusLed s) (nOffHook s) (nDialActive s)
         (nDigitPulse s) (log s)).

Definition set_offHook (v : bool) : M unit := fun s =>
  (tt, mkState (pc s) (dialActive s) (digitPulse s) v (digitCount s)
         (numberToReturn s) (oStatusLed s) (nOffHook s) (nDialActive s)
         (nDigitPulse s) (log s)).

Definition set_digitCount (n : Z) : M unit := fun s =>
  (tt, mkState (pc s) (dialActive s) (digitPulse s) (offHook s) n
         (numberToReturn s) (oStatusLed s) (nOffHook s) (nDialActive s)
         (nDigitPulse s) (log s)).

Definition set_numberToReturn (n : Z) : M unit := fun s =>
  (tt, mkState (pc s) (dialActive s) (digitPulse s) (offHook s) (digitCount s)
         n (oStatusLed s) (nOffHook s) (nDialActive s)
         (nDigitPulse s) (log s)).

(** [oStatusLed.value = v]: drives the output and is logged. *)
Definition set_oStatusLed (v : bool) : M unit := fun s =>
  (tt, mkState (pc s) (dialActive s) (digitPulse s) (offHook s) (digitCount s)
         (numberToReturn s) v (nOffHook s) (nDialActive s)
         (nDigitPulse s) (log s ++ [Led v])).

(** Number of samples already taken from a pin. *)
Definition reads (p : pin) (s : state) : nat :=
  match p with
  | oOffHook => nOffHook s
  | oDialActive => nDialActive s
  | oDigitPulse => nDigitPulse s
  end.

(** [p.value]: the next sample of pin [p]. *)
Definition value (e : env) (p : pin) : M bool := fun s =>
  let v := e p (reads p s) in
  (v, mkState (pc s) (dialActive s) (digitPulse s) (offHook s) (digitCount s)
        (numberToReturn s) (oStatusLed s)
        (match p with oOffHook => S (nOffHook s) | _ => nOffHook s end)
        (match p with oDialActive => S (nDialActive s) | _ => nDialActive s end)
        (match p with oDigitPulse => S (nDigitPulse s) | _ => nDigitPulse s end)
        (log s ++ [Read p v])).

Definition time_sleep : M unit := emit Sleep.
Definition print (msg : string) : M unit := emit (PrintStr msg).
Definition print_int (n : Z) : M unit := emit (PrintInt n).
(** [kbd.send] belongs to [adafruit_hid], which is not part of the
    repository.  It is modelled as a call that returns.  The library stores
    the keycode in one byte of the HID report, so this is what the call does
    for the keycodes of [fits_hid_byte] below; for larger keycodes the model
    only tells which argument line 152 passes. *)
Definition kbd_send (keycode : Z) : M unit := emit (KbdSend keycode).
Definition kbd_release_all : M unit := emit KbdReleaseAll.

(** ** The program *)

(** Lines 109-113: read hook state with debounce delay. *)
Definition hookState (e : env) : M bool :=
  LoffHook <- value e oOffHook ;;
  time_sleep ;;
  set_oStatusLed LoffHook ;;
  ret LoffHook.

(** The code from one loop test to the next. *)
Definition block (e : env) (l : label) : M unit :=
  match l with
  | Top =>
      (* lines 122-124 *)
      h <- hookState e ;;
      set_offHook h ;;
      h' <- gets offHook ;;
      set_oStatusLed h' ;;
      print "Sleeping" ;;
      goto Sleeping
  | Sleeping =>
      h <- gets offHook ;;
      if negb h then
        (* line 126 *)
        h' <- hookState e ;;
        set_offHook h' ;;
        goto Sleeping
      else
        (* lines 128-130 *)
        print "Waiting to dial" ;;
        set_digitCount 0%Z ;;
        d <- value e oDialActive ;;
        set_dialActive d ;;
        goto WaitingToDial
  | WaitingToDial =>
      d <- gets dialActive ;;
      if negb d then
        (* lines 132-135 *)
        d' <- value e oDialActive ;;
        set_dialActive d' ;;
        time_sleep ;;
        h <- hookState e ;;
        set_offHook h ;;
        if negb h then
          (* [break], then line 137 *)
          print "Dial is active" ;;
          goto DialIsActive
        else goto WaitingToDial
      else
        (* line 137 *)
        print "Dial is active" ;;
        goto DialIsActive
  | DialIsActive =>
      d <- gets dialActive ;;
      if d then
        (* lines 139-142 *)
        p <- value e oDigitPulse ;;
        set_digitPulse p ;;
        time_sleep ;;
        if negb p then
          c <- gets digitCount ;;
          set_digitCount (c + 1)%Z ;;
          goto PulseLow
        else goto AfterPulse
      else goto Top
  | PulseLow =>
      p <- gets digitPulse ;;
      if negb p then
        (* line 144 *)
        p' <- value e oDigitPulse ;;
        set_digitPulse p' ;;
        goto PulseLow
      else goto AfterPulse
  | AfterPulse =>
      (* lines 146-156; the message of line 150 is printed after two
         newlines and ends with a space instead of a newline *)
      d <- value e oDialActive ;;
      set_dialActive d ;;
      (if negb d then
         c <- gets digitCount ;;
         set_numberToReturn c ;;
         print "Final Number dialed =" ;;
         n <- gets numberToReturn ;;
         print_int n ;;
         n' <- gets numberToReturn ;;
         kbd_send (n' + 0x1d)%Z ;;
         kbd_release_all
       else ret tt) ;;
      h <- hookState e ;;
      set_offHook h ;;
      if negb h then goto Top (* [break] *) else goto DialIsActive
  end.

(** One step of the machine: run the block at the current control point. *)
Definition step (e : env) (s : state) : state := snd (block e (pc s) s).

(** [k] steps. *)
Fixpoint run (e : env) (k : nat) (s : state) : state :=
  match k with
  | O => s
  | S k' => run e k' (step e s)
  end.

(** [s'] is reached from [s] after some number of steps. *)
Definition reaches (e : env) (s s' : state) : Prop :=
  exists k, run e k s = s'.

(** ** Observations on the event log *)

(** The calls made on the keyboard, in order. *)
Fixpoint kbd_calls (t : list event) : list event :=
  match t with
  | [] => []
  | KbdSend k :: t' => KbdSend k :: kbd_calls t'
  | KbdReleaseAll :: t' => KbdReleaseAll :: kbd_calls t'
  | _ :: t' => kbd_calls t'
  end.

(** The keycodes sent, in order. *)
Fixpoint keys (t : list event) : list Z :=
  match t with
  | [] => []
  | KbdSend k :: t' => k :: keys t'
  | _ :: t' => keys t'
  end.

(** The digit keys of the USB HID keyboard usage table, as
    [adafruit_hid.keycode.Keycode] lists them: [ONE = 0x1E] up to
    [NINE = 0x26], then [ZERO = 0x27] (line 152: "0" is the tenth value in
    the digit sequence of the HID codes).  Any other keycode is not a digit
    key. *)
Definition keycode_digit (k : Z) : option Z :=
  if ((0x1e <=? k) && (k <=? 0x26))%Z then Some (k - 0x1d)%Z
  else if (k =? 0x27)%Z then Some 0%Z
  else None.

(** The keycodes that fit the byte that the HID keyboard report has for a
    key: for these [kbd.send] presses the key and returns.  With
    [digitCount + 0x1d] as the keycode this means a count of at most 226. *)
Definition fits_hid_byte (keycode : Z) : Prop := (0 <= keycode <= 255)%Z.

(** [Keycode.Z = 0x1D], the key just before the digit keys. *)
Definition Keycode_Z : Z := 0x1d%Z.

(** An input line given by its first samples and the level it keeps
    afterwards. *)
Definition line (l : list bool) (rest : bool) : nat -> bool :=
  fun k => nth k l rest.

(** An environment from the three lines. *)
Definition mkEnv (hook dial pulse : nat -> bool) : env :=
  fun p =>
    match p with
    | oOffHook => hook
    | oDialActive => dial
    | oDigitPulse => pulse
    end.

(** The samples [l] are what line [f] gives from its [off]-th read on. *)
Definition agrees (f : nat -> bool) (off : nat) (l : list bool) : Prop :=
  forall i b, nth_error l i = Some b -> f (off + i) = b.

(** What lines 146-153 logs: nothing while the dial is still active, and the
    diagnostic output with the keyboard calls once it is not. *)
Definition emission (still_active : bool) (count : Z) : list event :=
  if still_active then []
  else [PrintStr "Final Number dialed ="; PrintInt count;
        KbdSend (count + 0x1d)%Z; KbdReleaseAll].

(** ** Input scenarios *)

(** What one pass of the dialing loop (lines 139-144) finds on the pulse
    line: [None] is a single high sample, so no pulse; [Some j] is a low
    sample at line 139, [j] more low samples in the wait of line 144 and
    the high sample that ends the wait. *)
Definition pulse_samples (b : option nat) : list bool :=
  match b with
  | None => [true]
  | Some j => false :: repeat false j ++ [true]
  end.

(** Pulses observed in one pass. *)
Definition pulse_count1 (b : option nat) : Z :=
  match b with
  | None => 0%Z
  | Some _ => 1%Z
  end.

(** Pulses observed in a sequence of passes. *)
Fixpoint pulse_total (bs : list (option nat)) : Z :=
  match bs with
  | [] => 0%Z
  | b :: bs' => (pulse_count1 b + pulse_total bs')%Z
  end.

(** One dial rotation as the program samples it: the dial-active line reads
    false [waiting] times before it reads true; the dialing loop then makes
    one pass per element of [turning] with the dial still active, and a last
    pass, [closing], after which the dial-active line reads false. *)
Record rotation : Type := mkRotation {
  waiting : nat;
  turning : list (option nat);
  closing : option nat
}.

Definition passes (r : rotation) : list (option nat) :=
  turning r ++ [closing r].

(** The samples of the dial-active line during a rotation. *)
Definition dial_samples (r : rotation) : list bool :=
  repeat false (waiting r) ++ true :: repeat true (length (turning r))
    ++ [false].

(** The samples of the pulse line during a rotation. *)
Definition pulse_line_samples (r : rotation) : list bool :=
  concat (map pulse_samples (passes r)).

(** The number of pulses observed during a rotation. *)
Definition pulses (r : rotation) : Z := pulse_total (passes r).

(** The keyboard calls of one emission. *)
Definition press_and_release (count : Z) : list event :=
  [KbdSend (count + 0x1d)%Z; KbdReleaseAll].

(** Line 146 is about to read the dial-active line as false: the point
    where lines 148-153 run. *)
Definition at_emission (e : env) (s : state) : bool :=
  match pc s with
  | AfterPulse => negb (e oDialActive (nDialActive s))
  | _ => false
  end.

(** ** Concrete traces *)

(** An off-hook session made of the given rotations; afterwards the dial
    stays at rest. *)
Definition session (rs : list rotation) : env :=
  mkEnv (fun _ => true)
        (line (concat (map dial_samples rs)) false)
        (line (concat (map pulse_line_samples rs)) true).

Definition no_pulse : rotation := mkRotation 0 [] None.
Definition three_pulses : rotation :=
  mkRotation 2 [Some 1; None; Some 0] (Some 0).
Definition five_pulses : rotation :=
  mkRotation 1 [Some 0; Some 2; Some 0; None; Some 1; Some 0] None.
Definition seven_pulses : rotation :=
  mkRotation 3 (repeat (Some 1) 6) (Some 0).
Definition ten_pulses : rotation := mkRotation 1 (repeat (Some 1) 9) (Some 0).
Definition eleven_pulses : rotation :=
  mkRotation 0 (repeat (Some 0) 10) (Some 0).

(** The handset is put down in the very pass of the waiting loop in which
    the dial-active line first reads true; one pulse follows. *)
Definition hang_up_race : env :=
  mkEnv (line [true; false] false)
        (line [false; true; false] false)
        (line [false; true] true).

(** The dial goes active and the pulse line then reads low for ever, while
    the handset is put down. *)
Definition stuck_low : env :=
  mkEnv (line [true] false) (line [true] false) (fun _ => false).

(** ** More observations and traces *)

(** The numbers printed by line 151, in order. *)
Fixpoint printed_ints (t : list event) : list Z :=
  match t with
  | [] => []
  | PrintInt n :: t' => n :: printed_ints t'
  | _ :: t' => printed_ints t'
  end.

(** Two environments give the same samples from the reads of [s] on. *)
Definition same_future (e e' : env) (s : state) : Prop :=
  forall p i, reads p s <= i -> e p i = e' p i.

(** [e] with the hook line held off-hook. *)
Definition hold_off_hook (e : env) : env :=
  fun p i =>
    match p with
    | oOffHook => true
    | _ => e p i
    end.

(** The handset stays on the hook while the dial is turned. *)
Definition on_hook : env :=
  mkEnv (fun _ => false)
        (line (dial_samples three_pulses) false)
        (line (pulse_line_samples three_pulses) true).

(** The handset is lifted and put down again and the pulse line chatters,
    but the dial-active line stays at rest. *)
Definition dial_at_rest : env :=
  mkEnv (line [true; true; false; false; true; true] false)
        (fun _ => false)
        (line [false; true; false] false).

(** The handset is on the hook for two samples, then lifted, and 3 is
    dialed. *)
Definition asleep_then_three : env :=
  mkEnv (line [false; false] true)
        (line (dial_samples three_pulses) false)
        (line (pulse_line_samples three_pulses) true).

(** One pulse of a first rotation is counted, the handset is put down while
    the dial is still active, lifted again, and 3 is dialed. *)
Definition hang_up_then_redial : env :=
  mkEnv (line [true; true; false] true)
        (line ([true; true; true] ++ dial_samples three_pulses) false)
        (line ([false; true; true] ++ pulse_line_samples three_pulses) true).

(** ** Invariants of the runs *)

(** The keyboard calls so far are one press and release per count in [cs];
    the counts, like [digitCount], lie between 0 and the number of pulse
    samples taken; [numberToReturn] is the last count sent. *)
Definition kbd_inv (s : state) (cs : list Z) : Prop :=
  kbd_calls (log s) = concat (map press_and_release cs) /\
  Forall (fun c => (0 <= c <= Z.of_nat (nDigitPulse s))%Z) cs /\
  (0 <= digitCount s <= Z.of_nat (nDigitPulse s))%Z /\
  numberToReturn s = last cs 0%Z.

(** What holds at the control points of every run. *)
Definition loop_inv (s : state) : Prop :=
  2 * length (keys (log s)) + Nat.b2n (dialActive s) <= nDialActive s /\
  (pc s = PulseLow -> dialActive s = true) /\
  (pc s = AfterPulse -> dialActive s = true /\ digitPulse s = true) /\
  (pc s = WaitingToDial -> offHook s = true /\ digitCount s = 0%Z) /\
  offHook s = oStatusLed s.

(** What holds while the dial-active line has only read false. *)
Definition rest_inv (s : state) : Prop :=
  dialActive s = false /\ pc s <> PulseLow /\ pc s <> AfterPulse /\
  kbd_calls (log s) = [] /\ nDigitPulse s = 0.

(** ** Basic facts about runs, sample lists and logs *)

Lemma run_add (e : env) (a b : nat) (s : state) :
  run e (a + b) s = run e b (run e a s).
Proof.
  revert s; induction a as [|a IH]; intros s; simpl; [reflexivity | apply IH].
Qed.

Lemma run_S_last (e : env) (k : nat) (s : state) :
  run e (S k) s = step e (run e k s).
Proof.
  replace (S k) with (k + 1) by lia. rewrite run_add. reflexivity.
Qed.

Lemma reaches_refl (e : env) (s : state) : reaches e s s.
Proof. exists 0. reflexivity. Qed.

Lemma reaches_trans (e : env) (s1 s2 s3 : state) :
  reaches e s1 s2 -> reaches e s2 s3 -> reaches e s1 s3.
Proof.
  intros [a Ha] [b Hb]. exists (a + b). rewrite run_add, Ha. exact Hb.
Qed.

Lemma reaches_step (e : env) (s s' : state) :
  reaches e (step e s) s' -> reaches e s s'.
Proof. intros [k Hk]. exists (S k). exact Hk. Qed.

Lemma agrees_nil (f : nat -> bool) (off : nat) : agrees f off [].
Proof. intros [|i] b H; discriminate H. Qed.

Lemma agrees_cons (f : nat -> bool) (off : nat) (x : bool) (l : list bool) :
  agrees f off (x :: l) <-> f off = x /\ agrees f (S off) l.
Proof.
  split.
  - intros H. split.
    + rewrite <- (Nat.add_0_r off). apply H. reflexivity.
    + intros i b Hi. rewrite Nat.add_succ_comm. apply H. exact Hi.
  - intros [H0 H] [|i] b Hi.
    + simpl in Hi. injection Hi as <-. rewrite Nat.add_0_r. exact H0.
    + rewrite <- Nat.add_succ_comm. apply H. exact Hi.
Qed.

Lemma agrees_app (f : nat -> bool) (off : nat) (l1 l2 : list bool) :
  agrees f off (l1 ++ l2) <->
  agrees f off l1 /\ agrees f (off + length l1) l2.
Proof.
  revert off; induction l1 as [|x l1 IH]; intros off; simpl.
  - rewrite Nat.add_0_r. split; [intros H; split; [apply agrees_nil | exact H] | tauto].
  - rewrite !agrees_cons, IH. rewrite Nat.add_succ_comm. tauto.
Qed.

Lemma agrees_line (l : list bool) (rest : bool) : agrees (line l rest) 0 l.
Proof.
  intros i b Hi. unfold line. simpl. apply nth_error_nth. exact Hi.
Qed.

Lemma kbd_calls_app (t1 t2 : list event) :
  kbd_calls (t1 ++ t2) = kbd_calls t1 ++ kbd_calls t2.
Proof.
  induction t1 as [|ev t1 IH]; simpl; [reflexivity|].
  destruct ev; simpl; rewrite ?IH; reflexivity.
Qed.

Lemma keys_app (t1 t2 : list event) : keys (t1 ++ t2) = keys t1 ++ keys t2.
Proof.
  induction t1 as [|ev t1 IH]; simpl; [reflexivity|].
  destruct ev; simpl; rewrite ?IH; reflexivity.
Qed.

Lemma keys_kbd_calls (t : list event) : keys (kbd_calls t) = keys t.
Proof.
  induction t as [|ev t IH]; simpl; [reflexivity|].
  destruct ev; simpl; rewrite ?IH; reflexivity.
Qed.

(** ** The steps, control point by control point *)

Ltac run_block :=
  cbv [step block bind ret gets emit goto set_dialActive set_digitPulse
       set_offHook set_digitCount set_numberToReturn set_oStatusLed reads
       value time_sleep print print_int kbd_send kbd_release_all hookState
       snd pc dialActive digitPulse offHook digitCount numberToReturn
       oStatusLed nOffHook nDialActive nDigitPulse log negb];
  rewrite <- ?app_assoc; try reflexivity.

Section Steps.

Variable e : env.
Variables (d p h led : bool) (c nr : Z) (nh nd np : nat) (lg : list event).

Lemma step_Top :
  step e (mkState Top d p h c nr led nh nd np lg) =
  mkState Sleeping d p (e oOffHook nh) c nr (e oOffHook nh) (S nh) nd np
    (lg ++ [Read oOffHook (e oOffHook nh); Sleep; Led (e oOffHook nh);
            Led (e oOffHook nh); PrintStr "Sleeping"]).
Proof. run_block. Qed.

Lemma step_Sleeping_on_hook :
  step e (mkState Sleeping d p false c nr led nh nd np lg) =
  mkState Sleeping d p (e oOffHook nh) c nr (e oOffHook nh) (S nh) nd np
    (lg ++ [Read oOffHook (e oOffHook nh); Sleep; Led (e oOffHook nh)]).
Proof. run_block. Qed.

Lemma step_Sleeping_off_hook :
  step e (mkState Sleeping d p true c nr led nh nd np lg) =
  mkState WaitingToDial (e oDialActive nd) p true 0%Z nr led nh (S nd) np
    (lg ++ [PrintStr "Waiting to dial";
            Read oDialActive (e oDialActive nd)]).
Proof. run_block. Qed.

Lemma step_WaitingToDial_idle :
  step e (mkState WaitingToDial false p h c nr led nh nd np lg) =
  mkState (if e oOffHook nh then WaitingToDial else DialIsActive)
    (e oDialActive nd) p (e oOffHook nh) c nr (e oOffHook nh) (S nh) (S nd) np
    (lg ++ [Read oDialActive (e oDialActive nd); Sleep;
            Read oOffHook (e oOffHook nh); Sleep; Led (e oOffHook nh)]
        ++ (if e oOffHook nh then [] else [PrintStr "Dial is active"])).
Proof. run_block. destruct (e oOffHook nh); run_block. Qed.

Lemma step_WaitingToDial_active :
  step e (mkState WaitingToDial true p h c nr led nh nd np lg) =
  mkState DialIsActive true p h c nr led nh nd np
    (lg ++ [PrintStr "Dial is active"]).
Proof. run_block. Qed.

Lemma step_DialIsActive_done :
  step e (mkState DialIsActive false p h c nr led nh nd np lg) =
  mkState Top false p h c nr led nh nd np lg.
Proof. run_block. Qed.

Lemma step_DialIsActive_sample :
  step e (mkState DialIsActive true p h c nr led nh nd np lg) =
  mkState (if e oDigitPulse np then AfterPulse else PulseLow)
    true (e oDigitPulse np) h
    (if e oDigitPulse np then c else (c + 1)%Z) nr led nh nd (S np)
    (lg ++ [Read oDigitPulse (e oDigitPulse np); Sleep]).
Proof. run_block. destruct (e oDigitPulse np); run_block. Qed.

Lemma step_PulseLow_low :
  step e (mkState PulseLow d false h c nr led nh nd np lg) =
  mkState PulseLow d (e oDigitPulse np) h c nr led nh nd (S np)
    (lg ++ [Read oDigitPulse (e oDigitPulse np)]).
Proof. run_block. Qed.

Lemma step_PulseLow_high :
  step e (mkState PulseLow d true h c nr led nh nd np lg) =
  mkState AfterPulse d true h c nr led nh nd np lg.
Proof. run_block. Qed.

Lemma step_AfterPulse :
  step e (mkState AfterPulse d p h c nr led nh nd np lg) =
  mkState (if e oOffHook nh then DialIsActive else Top)
    (e oDialActive nd) p (e oOffHook nh) c
    (if e oDialActive nd then nr else c)
    (e oOffHook nh) (S nh) (S nd) np
    (lg ++ [Read oDialActive (e oDialActive nd)]
        ++ emission (e oDialActive nd) c
        ++ [Read oOffHook (e oOffHook nh); Sleep; Led (e oOffHook nh)]).
Proof.
  run_block. unfold emission.
  destruct (e oDialActive nd), (e oOffHook nh); run_block.
Qed.

End Steps.

(** ** The loops *)

Lemma reaches_eq (e : env) (s s1 s2 : state) :
  reaches e s s1 -> s1 = s2 -> reaches e s s2.
Proof. intros H <-. exact H. Qed.

Lemma kbd_calls_emission (still_active : bool) (count : Z) :
  kbd_calls (emission still_active count) =
  if still_active then [] else press_and_release count.
Proof. destruct still_active; reflexivity. Qed.

Lemma kbd_calls_pulse_reads (l : list bool) :
  kbd_calls (map (Read oDigitPulse) l) = [].
Proof. induction l as [|x l IH]; simpl; [reflexivity | exact IH]. Qed.

Lemma pulse_total_app (bs1 bs2 : list (option nat)) :
  pulse_total (bs1 ++ bs2) = (pulse_total bs1 + pulse_total bs2)%Z.
Proof. induction bs1 as [|b bs1 IH]; simpl; [reflexivity | rewrite IH; lia]. Qed.

Section Loops.

Variable e : env.

(** Lines 143-144: the wait for the pulse line to read high again. *)
Lemma busy_wait (j : nat) : forall d h c nr led nh nd np lg,
  agrees (e oDigitPulse) np (repeat false j ++ [true]) ->
  reaches e (mkState PulseLow d false h c nr led nh nd np lg)
    (mkState AfterPulse d true h c nr led nh nd (np + S j)
       (lg ++ map (Read oDigitPulse) (repeat false j ++ [true]))).
Proof.
  induction j as [|j IH]; intros d h c nr led nh nd np lg H;
    simpl in H; apply agrees_cons in H; destruct H as [H0 H].
  - apply reaches_step. rewrite step_PulseLow_low, H0.
    apply reaches_step. rewrite step_PulseLow_high.
    rewrite Nat.add_1_r. apply reaches_refl.
  - apply reaches_step. rewrite step_PulseLow_low, H0.
    eapply reaches_eq; [apply IH; exact H|].
    simpl. rewrite <- app_assoc. f_equal. lia.
Qed.

(** Lines 139-144: the pulse part of one pass of the dialing loop. *)
Lemma pulse_part (b : option nat) : forall p h c nr led nh nd np lg,
  agrees (e oDigitPulse) np (pulse_samples b) ->
  reaches e (mkState DialIsActive true p h c nr led nh nd np lg)
    (mkState AfterPulse true true h (c + pulse_count1 b)%Z nr led nh nd
       (np + length (pulse_samples b))
       (lg ++ match b with
              | None => [Read oDigitPulse true; Sleep]
              | Some j => Read oDigitPulse false :: Sleep
                            :: map (Read oDigitPulse) (repeat false j ++ [true])
              end)).
Proof.
  intros p h c nr led nh nd np lg H. destruct b as [j|]; simpl in H.
  - apply agrees_cons in H. destruct H as [H0 H].
    apply reaches_step. rewrite step_DialIsActive_sample, H0.
    eapply reaches_eq; [apply busy_wait; exact H|].
    simpl. rewrite <- app_assoc. simpl. rewrite length_app, repeat_length.
    simpl. f_equal. lia.
  - apply agrees_cons in H. destruct H as [H0 _].
    apply reaches_step. rewrite step_DialIsActive_sample, H0.
    simpl. rewrite Z.add_0_r, Nat.add_1_r. apply reaches_refl.
Qed.

(** One whole pass of the dialing loop, lines 139-156, whatever the
    dial-active and hook lines read at its end. *)
Lemma dialing_pass (b : option nat) : forall p h c nr led nh nd np lg,
  agrees (e oDigitPulse) np (pulse_samples b) ->
  exists evs,
    reaches e (mkState DialIsActive true p h c nr led nh nd np lg)
      (mkState (if e oOffHook nh then DialIsActive else Top)
         (e oDialActive nd) true (e oOffHook nh) (c + pulse_count1 b)%Z
         (if e oDialActive nd then nr else (c + pulse_count1 b)%Z)
         (e oOffHook nh) (S nh) (S nd) (np + length (pulse_samples b))
         (lg ++ evs)) /\
    kbd_calls evs =
      (if e oDialActive nd then []
       else press_and_release (c + pulse_count1 b)).
Proof.
  intros p h c nr led nh nd np lg H.
  eexists. split.
  - eapply reaches_trans; [apply pulse_part; exact H|].
    apply reaches_step. rewrite step_AfterPulse.
    eapply reaches_eq; [apply reaches_refl|].
    rewrite <- app_assoc. reflexivity.
  - rewrite !kbd_calls_app, kbd_calls_emission.
    destruct b as [j|]; simpl; rewrite ?kbd_calls_pulse_reads;
      destruct (e oDialActive nd); reflexivity.
Qed.

Hypothesis off_hook : forall k, e oOffHook k = true.

(** Lines 131-135 with the handset off the hook: the loop leaves when the
    dial-active line reads true. *)
Lemma waiting_loop (w : nat) : forall p h c nr led nh nd np lg,
  agrees (e oDialActive) nd (repeat false w ++ [true]) ->
  exists evs,
    reaches e (mkState WaitingToDial false p h c nr led nh nd np lg)
      (mkState WaitingToDial true p true c nr true (nh + S w) (nd + S w) np
         (lg ++ evs)) /\
    kbd_calls evs = [].
Proof.
  induction w as [|w IH]; intros p h c nr led nh nd np lg H;
    simpl in H; apply agrees_cons in H; destruct H as [H0 H].
  - eexists. split.
    + apply reaches_step. rewrite step_WaitingToDial_idle, H0, off_hook.
      rewrite !Nat.add_1_r. apply reaches_refl.
    + reflexivity.
  - destruct (IH p true c nr true (S nh) (S nd) np
               (lg ++ [Read oDialActive false; Sleep; Read oOffHook true;
                       Sleep; Led true]) H) as [evs [Hr Hk]].
    exists ([Read oDialActive false; Sleep; Read oOffHook true; Sleep;
             Led true] ++ evs). split.
    + apply reaches_step. rewrite step_WaitingToDial_idle, H0, off_hook.
      simpl. rewrite ?app_nil_r.
      eapply reaches_eq; [exact Hr|].
      rewrite <- app_assoc. f_equal; lia.
    + rewrite kbd_calls_app, Hk. reflexivity.
Qed.

(** Lines 138-156 with the handset off the hook, while the dial-active line
    keeps reading true: nothing is sent and the pulses add up. *)
Lemma dialing_loop (bs : list (option nat)) : forall p h c nr led nh nd np lg,
  agrees (e oDialActive) nd (repeat true (length bs)) ->
  agrees (e oDigitPulse) np (concat (map pulse_samples bs)) ->
  exists p' h' led' evs,
    reaches e (mkState DialIsActive true p h c nr led nh nd np lg)
      (mkState DialIsActive true p' h' (c + pulse_total bs)%Z nr led'
         (nh + length bs) (nd + length bs)
         (np + length (concat (map pulse_samples bs))) (lg ++ evs)) /\
    kbd_calls evs = [].
Proof.
  induction bs as [|b bs IH]; intros p h c nr led nh nd np lg Hd Hp.
  - exists p, h, led, []. split; [|reflexivity].
    simpl. rewrite !Nat.add_0_r, Z.add_0_r, app_nil_r. apply reaches_refl.
  - simpl in Hd, Hp. apply agrees_cons in Hd. destruct Hd as [Hd0 Hd].
    apply agrees_app in Hp. destruct Hp as [Hp0 Hp].
    destruct (dialing_pass b p h c nr led nh nd np lg Hp0) as [evs1 [Hr1 Hk1]].
    rewrite Hd0, off_hook in Hr1. rewrite Hd0 in Hk1.
    destruct (IH true true (c + pulse_count1 b)%Z nr true (S nh) (S nd)
                (np + length (pulse_samples b)) (lg ++ evs1) Hd Hp)
      as [p' [h' [led' [evs2 [Hr2 Hk2]]]]].
    exists p', h', led', (evs1 ++ evs2). split.
    + eapply reaches_trans; [exact Hr1|].
      eapply reaches_eq; [exact Hr2|].
      simpl. rewrite length_app, <- app_assoc. f_equal; lia.
    + rewrite kbd_calls_app, Hk1, Hk2. reflexivity.
Qed.

End Loops.

(** ** Dial rotations with the handset off the hook *)

Section Session.

Variable e : env.
Hypothesis off_hook : forall k, e oOffHook k = true.

(** Lines 125-137: from the test of the sleeping loop to the dialing loop. *)
Lemma wait_for_dial (w : nat) : forall d p c nr led nh nd np lg,
  agrees (e oDialActive) nd (repeat false w ++ [true]) ->
  exists h' led' nh' evs,
    reaches e (mkState Sleeping d p true c nr led nh nd np lg)
      (mkState DialIsActive true p h' 0%Z nr led' nh' (nd + S w) np
         (lg ++ evs)) /\
    kbd_calls evs = [].
Proof.
  intros d p c nr led nh nd np lg H.
  destruct w as [|w]; simpl in H; apply agrees_cons in H;
    destruct H as [H0 H].
  - exists true, led, nh,
      [PrintStr "Waiting to dial"; Read oDialActive true;
       PrintStr "Dial is active"].
    split; [|reflexivity].
    apply reaches_step. rewrite step_Sleeping_off_hook, H0.
    apply reaches_step. rewrite step_WaitingToDial_active.
    eapply reaches_eq; [apply reaches_refl|].
    rewrite <- app_assoc. f_equal. lia.
  - destruct (waiting_loop e off_hook w p true 0%Z nr led nh (S nd) np
                (lg ++ [PrintStr "Waiting to dial"; Read oDialActive false])
                H) as [evs [Hr Hk]].
    exists true, true, (nh + S w),
      ([PrintStr "Waiting to dial"; Read oDialActive false] ++ evs
         ++ [PrintStr "Dial is active"]).
    split.
    + apply reaches_step. rewrite step_Sleeping_off_hook, H0.
      eapply reaches_trans; [exact Hr|].
      apply reaches_step. rewrite step_WaitingToDial_active.
      eapply reaches_eq; [apply reaches_refl|].
      rewrite <- !app_assoc. f_equal. lia.
    + simpl. rewrite kbd_calls_app, Hk. reflexivity.
Qed.

(** One rotation, from the head of the main loop back to it: the keyboard is
    called once, with the pulses of this rotation plus [0x1d]. *)
Lemma one_rotation (r : rotation) (s : state) :
  pc s = Top ->
  agrees (e oDialActive) (nDialActive s) (dial_samples r) ->
  agrees (e oDigitPulse) (nDigitPulse s) (pulse_line_samples r) ->
  exists s' evs,
    reaches e s s' /\ pc s' = Top /\
    nDialActive s' = nDialActive s + length (dial_samples r) /\
    nDigitPulse s' = nDigitPulse s + length (pulse_line_samples r) /\
    digitCount s' = pulses r /\
    log s' = log s ++ evs /\
    kbd_calls evs = press_and_release (pulses r).
Proof.
  destruct s as [l d p h c nr led nh nd np lg]; simpl.
  destruct r as [w bs b].
  unfold dial_samples, pulse_line_samples, pulses, passes; simpl.
  intros -> Hd Hp.
  change (true :: repeat true (length bs) ++ [false])
    with ([true] ++ repeat true (length bs) ++ [false]) in Hd.
  rewrite app_assoc in Hd. apply agrees_app in Hd. destruct Hd as [Hw Hd].
  apply agrees_app in Hd. destruct Hd as [Hd Hlast].
  apply agrees_cons in Hlast. destruct Hlast as [Hlast _].
  rewrite map_app, concat_app in Hp. apply agrees_app in Hp.
  destruct Hp as [Hp Hpl]. simpl in Hpl. rewrite app_nil_r in Hpl.
  rewrite !length_app, !repeat_length in *. simpl length in *.
  set (lg0 := lg ++ [Read oOffHook true; Sleep; Led true; Led true;
                     PrintStr "Sleeping"]).
  destruct (wait_for_dial w d p c nr true (S nh) nd np lg0 Hw)
    as [h1 [led1 [nh1 [evs1 [Hr1 Hk1]]]]].
  replace (nd + S w) with (nd + (w + 1)) in Hr1 by lia.
  destruct (dialing_loop e off_hook bs p h1 0%Z nr led1 nh1 (nd + (w + 1)) np
              (lg0 ++ evs1) Hd Hp)
    as [p2 [h2 [led2 [evs2 [Hr2 Hk2]]]]].
  destruct (dialing_pass e b p2 h2 (0 + pulse_total bs)%Z nr led2
              (nh1 + length bs) (nd + (w + 1) + length bs)
              (np + length (concat (map pulse_samples bs)))
              ((lg0 ++ evs1) ++ evs2) Hpl)
    as [evs3 [Hr3 Hk3]].
  rewrite Hlast, off_hook in Hr3. rewrite Hlast in Hk3.
  eexists. exists ([Read oOffHook true; Sleep; Led true; Led true;
                    PrintStr "Sleeping"] ++ evs1 ++ evs2 ++ evs3).
  split; [|split; [|split; [|split; [|split; [|split]]]]].
  - apply reaches_step. rewrite step_Top, off_hook.
    eapply reaches_trans; [exact Hr1|].
    eapply reaches_trans; [exact Hr2|].
    eapply reaches_trans; [exact Hr3|].
    apply reaches_step. rewrite step_DialIsActive_done. apply reaches_refl.
  - reflexivity.
  - simpl. rewrite ?length_app, ?repeat_length. simpl.
    rewrite ?length_app, ?repeat_length. simpl. lia.
  - simpl. rewrite map_app, concat_app, length_app. simpl.
    rewrite app_nil_r. lia.
  - simpl. rewrite pulse_total_app. simpl. lia.
  - simpl. unfold lg0. rewrite <- !app_assoc. reflexivity.
  - rewrite !kbd_calls_app, Hk1, Hk2, Hk3. simpl.
    rewrite pulse_total_app. simpl. unfold press_and_release.
    repeat f_equal; lia.
Qed.

(** Any number of rotations in a row. *)
Lemma rotations (rs : list rotation) : forall s,
  pc s = Top ->
  agrees (e oDialActive) (nDialActive s) (concat (map dial_samples rs)) ->
  agrees (e oDigitPulse) (nDigitPulse s)
    (concat (map pulse_line_samples rs)) ->
  exists s' evs,
    reaches e s s' /\ pc s' = Top /\
    nDialActive s' = nDialActive s + length (concat (map dial_samples rs)) /\
    nDigitPulse s' =
      nDigitPulse s + length (concat (map pulse_line_samples rs)) /\
    log s' = log s ++ evs /\
    kbd_calls evs = concat (map (fun r => press_and_release (pulses r)) rs).
Proof.
  induction rs as [|r rs IH]; intros s Hpc Hd Hp.
  - exists s, []. simpl. rewrite !Nat.add_0_r, app_nil_r.
    repeat split; [apply reaches_refl | exact Hpc].
  - simpl in Hd, Hp. apply agrees_app in Hd. apply agrees_app in Hp.
    destruct Hd as [Hd1 Hd2]. destruct Hp as [Hp1 Hp2].
    destruct (one_rotation r s Hpc Hd1 Hp1)
      as [s1 [evs1 [Hr1 [Hpc1 [Hnd1 [Hnp1 [_ [Hlog1 Hk1]]]]]]]].
    rewrite <- Hnd1 in Hd2. rewrite <- Hnp1 in Hp2.
    destruct (IH s1 Hpc1 Hd2 Hp2)
      as [s2 [evs2 [Hr2 [Hpc2 [Hnd2 [Hnp2 [Hlog2 Hk2]]]]]]].
    exists s2, (evs1 ++ evs2).
    split; [|split; [|split; [|split; [|split]]]].
    + eapply reaches_trans; eassumption.
    + exact Hpc2.
    + simpl. rewrite length_app. lia.
    + simpl. rewrite length_app. lia.
    + rewrite Hlog2, Hlog1, app_assoc. reflexivity.
    + rewrite kbd_calls_app, Hk1, Hk2. reflexivity.
Qed.

End Session.

(** ** Digits and keystrokes *)

Lemma keycode_digit_1_10 (n : Z) :
  (1 <= n <= 10)%Z -> keycode_digit (n + 0x1d) = Some (n mod 10)%Z.
Proof.
  intros H.
  assert (n = 1 \/ n = 2 \/ n = 3 \/ n = 4 \/ n = 5 \/
          n = 6 \/ n = 7 \/ n = 8 \/ n = 9 \/ n = 10)%Z as Hn by lia.
  repeat (destruct Hn as [-> | Hn]; [reflexivity|]). subst n. reflexivity.
Qed.

Lemma keys_press_and_release (rs : list rotation) :
  keys (concat (map (fun r => press_and_release (pulses r)) rs)) =
  map (fun r => (pulses r + 0x1d)%Z) rs.
Proof.
  induction rs as [|r rs IH]; simpl; [reflexivity | rewrite IH; reflexivity].
Qed.

(** C1: for every pulse count [n] in 1..10, when the handset stays off the
    hook, the dial goes active, exactly [n] pulses are observed and the dial
    goes inactive, the keyboard is called exactly once, with keycode
    [n + 0x1d], and that keycode is the HID key of the digit [n mod 10]
    (counts 1..9 give digits 1..9, count 10 gives digit 0). *)
Theorem rotation_sends_digit (e : env) (r : rotation) (n : Z) :
  (forall k, e oOffHook k = true) ->
  agrees (e oDialActive) 0 (dial_samples r) ->
  agrees (e oDigitPulse) 0 (pulse_line_samples r) ->
  pulses r = n ->
  (1 <= n <= 10)%Z ->
  exists s',
    reaches e initial s' /\ pc s' = Top /\
    nDialActive s' = length (dial_samples r) /\
    nDigitPulse s' = length (pulse_line_samples r) /\
    kbd_calls (log s') = [KbdSend (n + 0x1d)%Z; KbdReleaseAll] /\
    keycode_digit (n + 0x1d) = Some (n mod 10)%Z.
Proof.
  intros Hh Hd Hp Hn Hrange.
  destruct (one_rotation e Hh r initial eq_refl Hd Hp)
    as [s' [evs [Hr [Hpc [Hnd [Hnp [_ [Hlog Hk]]]]]]]].
  exists s'. repeat split; try assumption.
  - rewrite Hlog. simpl. rewrite Hk, Hn. reflexivity.
  - apply keycode_digit_1_10. exact Hrange.
Qed.

Lemma rotation_sends_digit_witness :
  exists s',
    reaches (session [three_pulses]) initial s' /\ pc s' = Top /\
    nDialActive s' = length (dial_samples three_pulses) /\
    nDigitPulse s' = length (pulse_line_samples three_pulses) /\
    kbd_calls (log s') = [KbdSend (3 + 0x1d)%Z; KbdReleaseAll] /\
    keycode_digit (3 + 0x1d) = Some (3 mod 10)%Z.
Proof.
  apply (rotation_sends_digit (session [three_pulses]) three_pulses 3).
  - intros k. reflexivity.
  - exact (agrees_line (dial_samples three_pulses) false).
  - exact (agrees_line (pulse_line_samples three_pulses) true).
  - reflexivity.
  - lia.
Defined.

(** C4: within one off-hook session every completed dial rotation causes
    exactly one [kbd.send] followed by one [kbd.release_all], and the
    keycode of each rotation is made from the pulses of that rotation alone:
    line 129 has set [digitCount] back to 0 before the next rotation is
    counted.  The rotations are those whose keycode fits the byte of the
    HID report (at most 226 pulses), for which [kbd.send] returns. *)
Theorem one_keystroke_per_rotation (e : env) (rs : list rotation) :
  (forall k, e oOffHook k = true) ->
  agrees (e oDialActive) 0 (concat (map dial_samples rs)) ->
  agrees (e oDigitPulse) 0 (concat (map pulse_line_samples rs)) ->
  Forall (fun r => fits_hid_byte (pulses r + 0x1d)) rs ->
  (forall s, pc s = Sleeping -> offHook s = true ->
     pc (step e s) = WaitingToDial /\ digitCount (step e s) = 0%Z) /\
  exists s',
    reaches e initial s' /\ pc s' = Top /\
    nDialActive s' = length (concat (map dial_samples rs)) /\
    kbd_calls (log s') =
      concat (map (fun r => [KbdSend (pulses r + 0x1d)%Z; KbdReleaseAll]) rs) /\
    keys (log s') = map (fun r => (pulses r + 0x1d)%Z) rs /\
    length (keys (log s')) = length rs /\
    Forall fits_hid_byte (keys (log s')).
Proof.
  intros Hh Hd Hp Hfit. split.
  - intros [l d p h c nr led nh nd np lg]; simpl. intros -> ->.
    rewrite step_Sleeping_off_hook. split; reflexivity.
  - destruct (rotations e Hh rs initial eq_refl Hd Hp)
      as [s' [evs [Hr [Hpc [Hnd [_ [Hlog Hk]]]]]]].
    simpl in Hlog. subst evs.
    assert (Hkeys : keys (log s') = map (fun r => (pulses r + 0x1d)%Z) rs)
      by (rewrite <- keys_kbd_calls, Hk; apply keys_press_and_release).
    exists s'. repeat split; try assumption.
    + rewrite Hkeys. apply length_map.
    + rewrite Hkeys. apply Forall_map. exact Hfit.
Qed.

Lemma one_keystroke_per_rotation_witness :
  (forall s, pc s = Sleeping -> offHook s = true ->
     pc (step (session [five_pulses; seven_pulses]) s) = WaitingToDial /\
     digitCount (step (session [five_pulses; seven_pulses]) s) = 0%Z) /\
  exists s',
    reaches (session [five_pulses; seven_pulses]) initial s' /\
    pc s' = Top /\
    nDialActive s' =
      length (concat (map dial_samples [five_pulses; seven_pulses])) /\
    kbd_calls (log s') =
      concat (map (fun r => [KbdSend (pulses r + 0x1d)%Z; KbdReleaseAll])
                [five_pulses; seven_pulses]) /\
    keys (log s') =
      map (fun r => (pulses r + 0x1d)%Z) [five_pulses; seven_pulses] /\
    length (keys (log s')) = length [five_pulses; seven_pulses] /\
    Forall fits_hid_byte (keys (log s')).
Proof.
  apply (one_keystroke_per_rotation (session [five_pulses; seven_pulses])
           [five_pulses; seven_pulses]).
  - intros k. reflexivity.
  - exact (agrees_line
             (concat (map dial_samples [five_pulses; seven_pulses])) false).
  - exact (agrees_line
             (concat (map pulse_line_samples [five_pulses; seven_pulses]))
             true).
  - constructor; [split; vm_compute; discriminate|].
    constructor; [split; vm_compute; discriminate|]. constructor.
Defined.

(** ** The wait for the pulse line *)

(** While the pulse line reads low, the wait of lines 143-144 only samples
    the pulse line, once per step. *)
Lemma low_run (e : env) (k : nat) : forall d h c nr led nh nd np lg,
  (forall i, i < k -> e oDigitPulse (np + i) = false) ->
  run e k (mkState PulseLow d false h c nr led nh nd np lg) =
  mkState PulseLow d false h c nr led nh nd (np + k)
    (lg ++ repeat (Read oDigitPulse false) k).
Proof.
  induction k as [|k IH]; intros d h c nr led nh nd np lg H.
  - simpl. rewrite Nat.add_0_r, app_nil_r. reflexivity.
  - simpl. rewrite step_PulseLow_low.
    replace (e oDigitPulse np) with false
      by (symmetry; rewrite <- (Nat.add_0_r np); apply H; lia).
    rewrite IH.
    + rewrite <- app_assoc. f_equal. lia.
    + intros i Hi. replace (S np + i) with (np + S i) by lia. apply H. lia.
Qed.

(** C5: in the dialing loop a sample of the pulse line that reads low adds
    exactly one to [digitCount]; the program then reads nothing but the
    pulse line until it reads high, and only then goes on to line 146.  A
    sample that reads high leaves the count as it is. *)
Theorem falling_edge_counted_once (e : env) (s : state) (j : nat) :
  pc s = DialIsActive ->
  dialActive s = true ->
  agrees (e oDigitPulse) (nDigitPulse s) (false :: repeat false j ++ [true]) ->
  digitCount (step e s) = (digitCount s + 1)%Z /\
  pc (step e s) = PulseLow /\
  (forall k, k <= j ->
     pc (run e k (step e s)) = PulseLow /\
     digitPulse (run e k (step e s)) = false /\
     digitCount (run e k (step e s)) = (digitCount s + 1)%Z) /\
  exists s',
    reaches e s s' /\ pc s' = AfterPulse /\
    digitCount s' = (digitCount s + 1)%Z /\
    digitPulse s' = true /\
    nDigitPulse s' = nDigitPulse s + (j + 2) /\
    nOffHook s' = nOffHook s /\ nDialActive s' = nDialActive s /\
    log s' = log s ++ Read oDigitPulse false :: Sleep ::
               map (Read oDigitPulse) (repeat false j ++ [true]).
Proof.
  destruct s as [l d p h c nr led nh nd np lg]; simpl.
  intros -> -> H.
  pose proof (pulse_part e (Some j) p h c nr led nh nd np lg H) as Hr.
  apply agrees_cons in H. destruct H as [H0 H].
  apply agrees_app in H. destruct H as [Hlow _].
  rewrite step_DialIsActive_sample, H0.
  split; [reflexivity|]. split; [reflexivity|]. split.
  - intros k Hk. rewrite low_run.
    + repeat split.
    + intros i Hi. apply Hlow. apply nth_error_repeat. lia.
  - eexists. split; [exact Hr|]. simpl.
    rewrite length_app, repeat_length. simpl.
    repeat split. lia.
Qed.

Lemma falling_edge_counted_once_witness :
  digitCount (step (session [three_pulses]) (run (session [three_pulses]) 5 initial))
    = (digitCount (run (session [three_pulses]) 5 initial) + 1)%Z /\
  pc (run (session [three_pulses]) 5 initial) = DialIsActive.
Proof.
  split; [|reflexivity].
  apply (falling_edge_counted_once (session [three_pulses])
           (run (session [three_pulses]) 5 initial) 1).
  - reflexivity.
  - reflexivity.
  - intros i b Hi.
    destruct i as [|[|[|[|i]]]]; simpl in Hi; try discriminate Hi;
      injection Hi as <-; reflexivity.
Defined.

(** C8: if the pulse line reads low in the dialing loop and never reads high
    again, the wait of lines 143-144 never ends: after any number of steps
    the program is still in that loop, still sampling the pulse line, having
    read neither the hook nor the dial-active line and having sent nothing.
    There is no timeout. *)
Theorem stuck_pulse_line_hangs (e : env) (s : state) :
  pc s = DialIsActive ->
  dialActive s = true ->
  (forall i, e oDigitPulse (nDigitPulse s + i) = false) ->
  forall k,
    pc (run e (S k) s) = PulseLow /\
    nDigitPulse (run e (S k) s) = nDigitPulse s + S k /\
    nOffHook (run e (S k) s) = nOffHook s /\
    nDialActive (run e (S k) s) = nDialActive s /\
    kbd_calls (log (run e (S k) s)) = kbd_calls (log s).
Proof.
  destruct s as [l d p h c nr led nh nd np lg]; simpl.
  intros -> -> H k.
  rewrite step_DialIsActive_sample.
  replace (e oDigitPulse np) with false
    by (symmetry; rewrite <- (Nat.add_0_r np); apply H).
  rewrite low_run.
  - simpl. repeat split; try lia.
    rewrite !kbd_calls_app. simpl.
    replace (kbd_calls (repeat (Read oDigitPulse false) k)) with (@nil event).
    + rewrite !app_nil_r. reflexivity.
    + induction k as [|k IH]; simpl; [reflexivity | exact IH].
  - intros i _. replace (S np + i) with (np + S i) by lia. apply H.
Qed.

Lemma stuck_pulse_line_hangs_witness :
  pc (run stuck_low 3 initial) = DialIsActive /\
  pc (run stuck_low (S 1000) (run stuck_low 3 initial)) = PulseLow.
Proof.
  split; [reflexivity|].
  apply (stuck_pulse_line_hangs stuck_low (run stuck_low 3 initial)).
  - reflexivity.
  - reflexivity.
  - intros i. reflexivity.
Defined.

(** C10: during the wait of lines 143-144 only the pulse line is sampled.
    As long as it reads low, every step reads the pulse line once and
    changes nothing else: the hook and the dial-active line are not read and
    the LED is not written.  The next hook sample is taken three steps
    after the low samples end, so whatever the hook line does during a low
    pulse, a hang-up leads back to the head of the main loop only after the
    pulse line has read high. *)
Theorem low_pulse_defers_hook (e : env) (s : state) (j : nat) :
  pc s = PulseLow ->
  digitPulse s = false ->
  agrees (e oDigitPulse) (nDigitPulse s) (repeat false j ++ [true]) ->
  (forall k, k <= j ->
     run e k s =
     mkState PulseLow (dialActive s) false (offHook s) (digitCount s)
       (numberToReturn s) (oStatusLed s) (nOffHook s) (nDialActive s)
       (nDigitPulse s + k) (log s ++ repeat (Read oDigitPulse false) k)) /\
  pc (run e (j + 2) s) = AfterPulse /\
  nOffHook (run e (j + 2) s) = nOffHook s /\
  nDialActive (run e (j + 2) s) = nDialActive s /\
  oStatusLed (run e (j + 2) s) = oStatusLed s /\
  log (run e (j + 2) s) =
    log s ++ map (Read oDigitPulse) (repeat false j ++ [true]) /\
  nOffHook (run e (j + 3) s) = S (nOffHook s) /\
  offHook (run e (j + 3) s) = e oOffHook (nOffHook s) /\
  oStatusLed (run e (j + 3) s) = e oOffHook (nOffHook s) /\
  pc (run e (j + 3) s) = (if e oOffHook (nOffHook s) then DialIsActive else Top).
Proof.
  destruct s as [l d p h c nr led nh nd np lg]; simpl.
  intros -> -> H. apply agrees_app in H. destruct H as [Hlow Hhigh].
  apply agrees_cons in Hhigh. destruct Hhigh as [Hhigh _].
  rewrite repeat_length in Hhigh.
  assert (Hlow' : forall i, i < j -> e oDigitPulse (np + i) = false).
  { intros i Hi. apply Hlow. apply nth_error_repeat. exact Hi. }
  split.
  - intros k Hk. apply low_run. intros i Hi. apply Hlow'. lia.
  - rewrite !run_add, (low_run e j d h c nr led nh nd np lg Hlow').
    simpl. rewrite step_PulseLow_low, Hhigh, step_PulseLow_high.
    rewrite step_AfterPulse. simpl.
    repeat split.
    rewrite <- app_assoc, map_app.
    f_equal. f_equal. clear. induction j as [|j IH]; simpl; congruence.
Qed.

Lemma low_pulse_defers_hook_witness :
  pc (run (session [three_pulses]) 6 initial) = PulseLow /\
  pc (run (session [three_pulses]) (1 + 2)
        (run (session [three_pulses]) 6 initial)) = AfterPulse.
Proof.
  split; [reflexivity|].
  apply (low_pulse_defers_hook (session [three_pulses])
           (run (session [three_pulses]) 6 initial) 1).
  - reflexivity.
  - reflexivity.
  - intros i b Hi.
    destruct i as [|[|[|i]]]; simpl in Hi; try discriminate Hi;
      injection Hi as <-; reflexivity.
Defined.

(** ** The status LED *)

Lemma hookState_eq (e : env) (s : state) :
  hookState e s =
  (e oOffHook (nOffHook s),
   mkState (pc s) (dialActive s) (digitPulse s) (offHook s) (digitCount s)
     (numberToReturn s) (e oOffHook (nOffHook s)) (S (nOffHook s))
     (nDialActive s) (nDigitPulse s)
     (log s ++ [Read oOffHook (e oOffHook (nOffHook s)); Sleep;
                Led (e oOffHook (nOffHook s))])).
Proof. destruct s. run_block. Qed.

(** A step either takes no hook sample and leaves the LED alone, or takes
    one hook sample and leaves the LED at the value of that sample. *)
Lemma step_led (e : env) (s : state) :
  (nOffHook (step e s) = nOffHook s /\ oStatusLed (step e s) = oStatusLed s) \/
  (nOffHook (step e s) = S (nOffHook s) /\
   oStatusLed (step e s) = e oOffHook (nOffHook s)).
Proof.
  destruct s as [l d p h c nr led nh nd np lg].
  destruct l.
  - rewrite step_Top. right. split; reflexivity.
  - destruct h.
    + rewrite step_Sleeping_off_hook. left. split; reflexivity.
    + rewrite step_Sleeping_on_hook. right. split; reflexivity.
  - destruct d.
    + rewrite step_WaitingToDial_active. left. split; reflexivity.
    + rewrite step_WaitingToDial_idle. right. split; reflexivity.
  - destruct d.
    + rewrite step_DialIsActive_sample. left. split; reflexivity.
    + rewrite step_DialIsActive_done. left. split; reflexivity.
  - destruct p.
    + rewrite step_PulseLow_high. left. split; reflexivity.
    + rewrite step_PulseLow_low. left. split; reflexivity.
  - rewrite step_AfterPulse. right. split; reflexivity.
Qed.

(** C6: [hookState] leaves the LED at the value it has just sampled from
    the hook line; a step of the program, at whatever control point, either
    samples the hook and leaves the LED at that sample or does neither; so
    after every step of a run the LED shows the most recent hook sample. *)
Theorem led_mirrors_hook (e : env) :
  (forall s,
     fst (hookState e s) = e oOffHook (nOffHook s) /\
     oStatusLed (snd (hookState e s)) = fst (hookState e s) /\
     nOffHook (snd (hookState e s)) = S (nOffHook s) /\
     log (snd (hookState e s)) =
       log s ++ [Read oOffHook (e oOffHook (nOffHook s)); Sleep;
                 Led (e oOffHook (nOffHook s))]) /\
  (forall s,
     (nOffHook (step e s) = nOffHook s /\
      oStatusLed (step e s) = oStatusLed s) \/
     (nOffHook (step e s) = S (nOffHook s) /\
      oStatusLed (step e s) = e oOffHook (nOffHook s))) /\
  (forall k,
     0 < nOffHook (run e (S k) initial) /\
     oStatusLed (run e (S k) initial) =
       e oOffHook (nOffHook (run e (S k) initial) - 1)).
Proof.
  split; [|split].
  - intros s. rewrite hookState_eq. simpl. repeat split.
  - apply step_led.
  - induction k as [|k IH].
    + change (run e 1 initial) with (step e initial). unfold initial.
      rewrite step_Top. simpl. split; [lia | reflexivity].
    + rewrite run_S_last. destruct IH as [Hpos Hled].
      destruct (step_led e (run e (S k) initial)) as [[Hn Hl] | [Hn Hl]].
      * rewrite Hn, Hl. split; assumption.
      * rewrite Hn, Hl. split; [lia|]. f_equal. lia.
Qed.

(** ** What is sent to the keyboard *)

(** The keyboard calls of a single step. *)
Lemma step_kbd_calls (e : env) (s : state) :
  kbd_calls (log (step e s)) =
  kbd_calls (log s) ++
    (if at_emission e s then press_and_release (digitCount s) else []).
Proof.
  destruct s as [l d p h c nr led nh nd np lg]. unfold at_emission. simpl pc.
  destruct l.
  - rewrite step_Top. simpl. rewrite kbd_calls_app. reflexivity.
  - destruct h.
    + rewrite step_Sleeping_off_hook. simpl. rewrite kbd_calls_app.
      reflexivity.
    + rewrite step_Sleeping_on_hook. simpl. rewrite kbd_calls_app.
      reflexivity.
  - destruct d.
    + rewrite step_WaitingToDial_active. simpl. rewrite kbd_calls_app.
      reflexivity.
    + rewrite step_WaitingToDial_idle. simpl. rewrite kbd_calls_app.
      destruct (e oOffHook nh); reflexivity.
  - destruct d.
    + rewrite step_DialIsActive_sample. simpl. rewrite kbd_calls_app.
      reflexivity.
    + rewrite step_DialIsActive_done. simpl. rewrite app_nil_r. reflexivity.
  - destruct p.
    + rewrite step_PulseLow_high. simpl. rewrite app_nil_r. reflexivity.
    + rewrite step_PulseLow_low. simpl. rewrite kbd_calls_app. reflexivity.
  - rewrite step_AfterPulse. simpl.
    rewrite kbd_calls_app. simpl. rewrite kbd_calls_app, kbd_calls_emission.
    simpl. destruct (e oDialActive nd); reflexivity.
Qed.

(** C9: the keycode sent is always [digitCount + 0x1d] as it stands, with no
    reduction and no range check: a step calls the keyboard only at line
    152, and then with that sum.  For a count of 0 the keycode is [0x1d],
    which is [Keycode.Z] and no digit key; for a count above 10 it lies
    above the digit keys [0x1e..0x27].  Both happen on real traces: a
    rotation without pulses sends [0x1d] and one of eleven pulses sends
    [0x28]. *)
Theorem keycode_is_raw_count (e : env) :
  (forall s,
     kbd_calls (log (step e s)) =
     kbd_calls (log s) ++
       (if at_emission e s
        then [KbdSend (digitCount s + 0x1d)%Z; KbdReleaseAll] else [])) /\
  ((0 + 0x1d)%Z = Keycode_Z /\ keycode_digit (0 + 0x1d) = None) /\
  (forall c, (10 < c)%Z ->
     keycode_digit (c + 0x1d) = None /\ (0x27 < c + 0x1d)%Z) /\
  kbd_calls (log (run (session [no_pulse]) 5 initial)) =
    [KbdSend 0x1d%Z; KbdReleaseAll] /\
  kbd_calls (log (run (session [eleven_pulses]) 47 initial)) =
    [KbdSend 0x28%Z; KbdReleaseAll].
Proof.
  split; [|split; [|split; [|split]]].
  - intros s. apply step_kbd_calls.
  - split; reflexivity.
  - intros c Hc. split; [|lia]. unfold keycode_digit.
    replace ((30 <=? c + 29) && (c + 29 <=? 38))%Z with false
      by (symmetry; apply andb_false_iff; right; apply Z.leb_gt; lia).
    replace (c + 29 =? 39)%Z with false
      by (symmetry; apply Z.eqb_neq; lia).
    reflexivity.
  - vm_compute. reflexivity.
  - vm_compute. reflexivity.
Qed.

Lemma keycode_is_raw_count_witness :
  (10 < 11)%Z /\
  keycode_digit (11 + 0x1d) = None /\ (0x27 < 11 + 0x1d)%Z.
Proof.
  split; [lia|].
  apply (proj1 (proj2 (proj2 (keycode_is_raw_count (session [eleven_pulses]))))).
  lia.
Defined.

(** C2, as the program has it: when line 146 reads the dial-active line as
    false while [digitCount] is 0, the emission is not held back.  The
    program calls [kbd.send] once, with keycode [0x1d], and then
    [kbd.release_all]; [0x1d] is [Keycode.Z], not one of the digit keys
    [0x1e..0x27]. *)
Theorem zero_pulse_sends_keycode_Z (e : env) (s : state) :
  pc s = AfterPulse ->
  dialActive s = true ->
  digitCount s = 0%Z ->
  e oDialActive (nDialActive s) = false ->
  dialActive (step e s) = false /\
  kbd_calls (log (step e s)) =
    kbd_calls (log s) ++ [KbdSend Keycode_Z; KbdReleaseAll] /\
  keycode_digit Keycode_Z = None.
Proof.
  intros Hpc Hd Hc Hread. split; [|split].
  - destruct s as [l d p h c nr led nh nd np lg]; simpl in *. subst l.
    rewrite step_AfterPulse. simpl. exact Hread.
  - rewrite step_kbd_calls. unfold at_emission. rewrite Hpc, Hread, Hc.
    reflexivity.
  - reflexivity.
Qed.

Lemma zero_pulse_sends_keycode_Z_witness :
  pc (run (session [no_pulse]) 4 initial) = AfterPulse /\
  digitCount (run (session [no_pulse]) 4 initial) = 0%Z /\
  kbd_calls (log (step (session [no_pulse])
                    (run (session [no_pulse]) 4 initial))) =
    kbd_calls (log (run (session [no_pulse]) 4 initial))
      ++ [KbdSend Keycode_Z; KbdReleaseAll].
Proof.
  split; [reflexivity|]. split; [reflexivity|].
  apply (zero_pulse_sends_keycode_Z (session [no_pulse])
           (run (session [no_pulse]) 4 initial));
    reflexivity.
Defined.

(** C2 as stated fails: on the trace where the dial goes active and inactive
    again with no pulse, the count is 0 when the dial-active line reads
    false, and the keyboard is called all the same. *)
Lemma zero_pulse_not_suppressed :
  pc (run (session [no_pulse]) 4 initial) = AfterPulse /\
  digitCount (run (session [no_pulse]) 4 initial) = 0%Z /\
  dialActive (run (session [no_pulse]) 4 initial) = true /\
  dialActive (run (session [no_pulse]) 5 initial) = false /\
  kbd_calls (log (run (session [no_pulse]) 4 initial)) = [] /\
  kbd_calls (log (run (session [no_pulse]) 5 initial)) <> [].
Proof.
  repeat split; try reflexivity. vm_compute. discriminate.
Qed.

(** C7, as the program has it: a rotation without pulses makes the program
    send the raw keycode [0 + 0x1d = 0x1d].  That is [Keycode.Z], not the
    key of digit 0, and it differs from the keycode [0x27] of a rotation of
    ten pulses, which is the key of digit 0. *)
Theorem zero_pulse_rotation_sends_Z (e : env) (r : rotation) :
  (forall k, e oOffHook k = true) ->
  agrees (e oDialActive) 0 (dial_samples r) ->
  agrees (e oDigitPulse) 0 (pulse_line_samples r) ->
  pulses r = 0%Z ->
  exists s',
    reaches e initial s' /\ pc s' = Top /\
    nDialActive s' = length (dial_samples r) /\
    kbd_calls (log s') = [KbdSend Keycode_Z; KbdReleaseAll] /\
    keycode_digit Keycode_Z = None /\
    Keycode_Z <> (10 + 0x1d)%Z /\
    keycode_digit (10 + 0x1d) = Some 0%Z.
Proof.
  intros Hh Hd Hp Hn.
  destruct (one_rotation e Hh r initial eq_refl Hd Hp)
    as [s' [evs [Hr [Hpc [Hnd [_ [_ [Hlog Hk]]]]]]]].
  exists s'. repeat split; try assumption.
  - rewrite Hlog. simpl. rewrite Hk, Hn. reflexivity.
  - discriminate.
Qed.

Lemma zero_pulse_rotation_sends_Z_witness :
  exists s',
    reaches (session [no_pulse]) initial s' /\ pc s' = Top /\
    nDialActive s' = length (dial_samples no_pulse) /\
    kbd_calls (log s') = [KbdSend Keycode_Z; KbdReleaseAll] /\
    keycode_digit Keycode_Z = None /\
    Keycode_Z <> (10 + 0x1d)%Z /\
    keycode_digit (10 + 0x1d) = Some 0%Z.
Proof.
  apply (zero_pulse_rotation_sends_Z (session [no_pulse]) no_pulse).
  - intros k. reflexivity.
  - exact (agrees_line (dial_samples no_pulse) false).
  - exact (agrees_line (pulse_line_samples no_pulse) true).
  - reflexivity.
Defined.

(** C7 as stated fails: the keycode sent after a rotation without pulses is
    not the key of digit 0, and it is not the keycode sent after ten
    pulses. *)
Lemma zero_pulse_is_not_digit_zero :
  keys (log (run (session [no_pulse]) 5 initial)) = [0x1d%Z] /\
  keys (log (run (session [ten_pulses]) 64 initial)) = [0x27%Z] /\
  keycode_digit 0x1d <> Some 0%Z /\
  keycode_digit 0x27 = Some 0%Z /\
  keys (log (run (session [no_pulse]) 5 initial)) <>
    keys (log (run (session [ten_pulses]) 64 initial)).
Proof.
  repeat split; try (vm_compute; reflexivity); vm_compute; discriminate.
Qed.

(** ** Hanging up *)

(** A hang-up seen in the waiting loop while the dial is at rest leads back
    to the head of the main loop and nothing is sent. *)
Lemma hang_up_while_waiting (e : env) (s : state) :
  pc s = WaitingToDial ->
  dialActive s = false ->
  e oDialActive (nDialActive s) = false ->
  e oOffHook (nOffHook s) = false ->
  pc (run e 2 s) = Top /\
  kbd_calls (log (run e 2 s)) = kbd_calls (log s).
Proof.
  destruct s as [l d p h c nr led nh nd np lg]; simpl.
  intros -> -> Hd Hh.
  rewrite step_WaitingToDial_idle, Hd, Hh, step_DialIsActive_done. simpl.
  split; [reflexivity|]. rewrite kbd_calls_app. simpl. apply app_nil_r.
Qed.

(** A hang-up seen at the end of a pass of the dialing loop in which the dial
    was still active leads back to the head of the main loop and nothing is
    sent. *)
Lemma hang_up_while_dialing (e : env) (s : state) :
  pc s = AfterPulse ->
  e oDialActive (nDialActive s) = true ->
  e oOffHook (nOffHook s) = false ->
  pc (step e s) = Top /\
  kbd_calls (log (step e s)) = kbd_calls (log s).
Proof.
  intros Hpc Hd Hh. split.
  - destruct s as [l d p h c nr led nh nd np lg]; simpl in *. subst l.
    rewrite step_AfterPulse, Hh. reflexivity.
  - rewrite step_kbd_calls. unfold at_emission. rewrite Hpc, Hd.
    apply app_nil_r.
Qed.

(** C3 fails on the program.  In [hang_up_race] the pass of the waiting loop
    that samples the hook as on-hook has just read the dial-active line as
    true.  The [break] of line 135 leaves the waiting loop, the dialing loop
    of line 138 is entered with the handset on the hook, one pulse is
    counted, and when the dial-active line reads false the key of digit 1
    is sent. *)
Theorem hang_up_in_waiting_loop_still_sends :
  pc (run hang_up_race 2 initial) = WaitingToDial /\
  offHook (run hang_up_race 2 initial) = true /\
  offHook (run hang_up_race 3 initial) = false /\
  pc (run hang_up_race 3 initial) = DialIsActive /\
  dialActive (run hang_up_race 3 initial) = true /\
  kbd_calls (log (run hang_up_race 7 initial)) =
    [KbdSend 0x1e%Z; KbdReleaseAll] /\
  keycode_digit 0x1e = Some 1%Z /\
  pc (run hang_up_race 7 initial) = Top.
Proof.
  repeat split; vm_compute; reflexivity.
Qed.

(** ** Runs look at the samples still to come only *)

Ltac step_cases l d p h :=
  destruct l;
  [ rewrite ?step_Top
  | destruct h;
    [rewrite ?step_Sleeping_off_hook | rewrite ?step_Sleeping_on_hook]
  | destruct d;
    [rewrite ?step_WaitingToDial_active | rewrite ?step_WaitingToDial_idle]
  | destruct d;
    [rewrite ?step_DialIsActive_sample | rewrite ?step_DialIsActive_done]
  | destruct p; [rewrite ?step_PulseLow_high | rewrite ?step_PulseLow_low]
  | rewrite ?step_AfterPulse ].

Lemma step_reads_mono (e : env) (s : state) (q : pin) :
  reads q s <= reads q (step e s).
Proof.
  destruct s as [l d p h c nr led nh nd np lg].
  step_cases l d p h; destruct q; simpl; lia.
Qed.

Lemma run_reads_mono (e : env) (k : nat) (s : state) (q : pin) :
  reads q s <= reads q (run e k s).
Proof.
  revert s; induction k as [|k IH]; intros s; simpl; [lia|].
  etransitivity; [apply (step_reads_mono e s q) | apply IH].
Qed.

Lemma step_ext (e e' : env) (s : state) :
  same_future e e' s -> step e s = step e' s.
Proof.
  destruct s as [l d p h c nr led nh nd np lg]. intros H.
  assert (Hh : e oOffHook nh = e' oOffHook nh) by (apply H; simpl; lia).
  assert (Hd : e oDialActive nd = e' oDialActive nd) by (apply H; simpl; lia).
  assert (Hp : e oDigitPulse np = e' oDigitPulse np) by (apply H; simpl; lia).
  step_cases l d p h; rewrite ?Hh, ?Hd, ?Hp; reflexivity.
Qed.

Lemma run_ext (e e' : env) (k : nat) : forall s,
  same_future e e' s -> run e k s = run e' k s.
Proof.
  induction k as [|k IH]; intros s H; simpl; [reflexivity|].
  rewrite <- (step_ext e e' s H). apply IH.
  intros q i Hi. apply H.
  etransitivity; [apply (step_reads_mono e s q) | exact Hi].
Qed.

Lemma reaches_ext (e e' : env) (s s' : state) :
  same_future e e' s -> reaches e' s s' -> reaches e s s'.
Proof.
  intros H [k Hk]. exists k. rewrite (run_ext e e' k s H). exact Hk.
Qed.

Lemma same_future_hold (e : env) (s : state) :
  (forall i, e oOffHook (nOffHook s + i) = true) ->
  same_future e (hold_off_hook e) s.
Proof.
  intros H q i Hi. destruct q; simpl in *; try reflexivity.
  replace i with (nOffHook s + (i - nOffHook s)) by lia. apply H.
Qed.

Lemma agrees_line_app (l1 l2 : list bool) (rest : bool) :
  agrees (line (l1 ++ l2) rest) (length l1) l2.
Proof.
  pose proof (agrees_line (l1 ++ l2) rest) as H.
  apply agrees_app in H. exact (proj2 H).
Qed.

(** ** Sleeping, waking up and hanging up *)

(** With the handset off the hook from now on, one rotation seen from the
    test of the sleeping loop. *)
Lemma rotation_from_sleeping (e : env) (r : rotation) (s : state) :
  pc s = Sleeping ->
  offHook s = true ->
  (forall i, e oOffHook (nOffHook s + i) = true) ->
  agrees (e oDialActive) (nDialActive s) (dial_samples r) ->
  agrees (e oDigitPulse) (nDigitPulse s) (pulse_line_samples r) ->
  exists s',
    reaches e s s' /\ pc s' = Top /\
    nDialActive s' = nDialActive s + length (dial_samples r) /\
    nDigitPulse s' = nDigitPulse s + length (pulse_line_samples r) /\
    digitCount s' = pulses r /\
    kbd_calls (log s') = kbd_calls (log s) ++ press_and_release (pulses r).
Proof.
  intros Hpc Hoff Hhook Hd Hp.
  pose proof (same_future_hold e s Hhook) as Hsame.
  set (e' := hold_off_hook e) in *.
  assert (Hh' : forall k, e' oOffHook k = true) by (intros k; reflexivity).
  change (e oDialActive) with (e' oDialActive) in Hd.
  change (e oDigitPulse) with (e' oDigitPulse) in Hp.
  destruct s as [l d p h c nr led nh nd np lg]; simpl in Hpc, Hoff, Hd, Hp.
  subst l h. destruct r as [w bs b].
  unfold dial_samples, pulse_line_samples, pulses, passes in *.
  simpl waiting in *. simpl turning in *. simpl closing in *.
  change (true :: repeat true (length bs) ++ [false])
    with ([true] ++ repeat true (length bs) ++ [false]) in Hd.
  rewrite app_assoc in Hd. apply agrees_app in Hd. destruct Hd as [Hw Hd].
  apply agrees_app in Hd. destruct Hd as [Hd Hlast].
  apply agrees_cons in Hlast. destruct Hlast as [Hlast _].
  rewrite map_app, concat_app in Hp. apply agrees_app in Hp.
  destruct Hp as [Hp Hpl]. simpl in Hpl. rewrite app_nil_r in Hpl.
  rewrite length_app in Hd, Hlast.
  repeat rewrite repeat_length in Hd. repeat rewrite repeat_length in Hlast.
  simpl length in Hd, Hlast.
  destruct (wait_for_dial e' Hh' w d p c nr led nh nd np lg Hw)
    as [h1 [led1 [nh1 [evs1 [Hr1 Hk1]]]]].
  replace (nd + S w) with (nd + (w + 1)) in Hr1 by lia.
  destruct (dialing_loop e' Hh' bs p h1 0%Z nr led1 nh1 (nd + (w + 1)) np
              (lg ++ evs1) Hd Hp)
    as [p2 [h2 [led2 [evs2 [Hr2 Hk2]]]]].
  destruct (dialing_pass e' b p2 h2 (0 + pulse_total bs)%Z nr led2
              (nh1 + length bs) (nd + (w + 1) + length bs)
              (np + length (concat (map pulse_samples bs)))
              ((lg ++ evs1) ++ evs2) Hpl)
    as [evs3 [Hr3 Hk3]].
  rewrite Hlast, Hh' in Hr3. rewrite Hlast in Hk3.
  eexists. split; [|split; [|split; [|split; [|split]]]].
  - apply (reaches_ext e e'); [exact Hsame|].
    eapply reaches_trans; [exact Hr1|].
    eapply reaches_trans; [exact Hr2|].
    eapply reaches_trans; [exact Hr3|].
    apply reaches_step. rewrite step_DialIsActive_done. apply reaches_refl.
  - reflexivity.
  - simpl. rewrite ?length_app, ?repeat_length. simpl.
    rewrite ?length_app, ?repeat_length. simpl. lia.
  - simpl. rewrite map_app, concat_app, length_app. simpl.
    rewrite app_nil_r. lia.
  - simpl. rewrite pulse_total_app. simpl. lia.
  - simpl. rewrite !kbd_calls_app, Hk1, Hk2, Hk3. simpl.
    rewrite pulse_total_app. simpl. unfold press_and_release.
    rewrite !app_nil_r. repeat f_equal; lia.
Qed.

(** Line 126 while the hook reads on-hook: one hook sample per step. *)
Lemma sleep_run (e : env) (k : nat) : forall d p c nr led nh nd np lg,
  (forall i, i < k -> e oOffHook (nh + i) = false) ->
  exists evs,
    run e k (mkState Sleeping d p false c nr led nh nd np lg) =
    mkState Sleeping d p false c nr (match k with O => led | S _ => false end) (nh + k) nd np
      (lg ++ evs) /\
    kbd_calls evs = [].
Proof.
  induction k as [|k IH]; intros d p c nr led nh nd np lg H.
  - exists []. simpl. rewrite Nat.add_0_r, app_nil_r. split; reflexivity.
  - simpl run. rewrite step_Sleeping_on_hook.
    replace (e oOffHook nh) with false
      by (symmetry; rewrite <- (Nat.add_0_r nh); apply H; lia).
    destruct (IH d p c nr false (S nh) nd np
                (lg ++ [Read oOffHook false; Sleep; Led false])) as [evs [Hr Hk]].
    { intros i Hi. replace (S nh + i) with (nh + S i) by lia. apply H. lia. }
    exists ([Read oOffHook false; Sleep; Led false] ++ evs). split.
    + rewrite Hr. rewrite <- app_assoc. f_equal; [|lia].
      destruct k; reflexivity.
    + rewrite kbd_calls_app, Hk. reflexivity.
Qed.

(** Lines 122-126: while the hook line reads on-hook the program stays in
    the sleeping loop.  Every step takes one hook sample; the LED is off;
    the dial-active and pulse lines are never read and nothing is sent,
    whatever those lines do. *)
Theorem on_hook_stays_asleep (e : env) (s : state) :
  pc s = Top ->
  (forall i, e oOffHook (nOffHook s + i) = false) ->
  forall k,
    pc (run e (S k) s) = Sleeping /\
    offHook (run e (S k) s) = false /\
    oStatusLed (run e (S k) s) = false /\
    nOffHook (run e (S k) s) = nOffHook s + S k /\
    nDialActive (run e (S k) s) = nDialActive s /\
    nDigitPulse (run e (S k) s) = nDigitPulse s /\
    kbd_calls (log (run e (S k) s)) = kbd_calls (log s).
Proof.
  destruct s as [l d p h c nr led nh nd np lg]; simpl pc; simpl nOffHook.
  intros -> H k. simpl run. rewrite step_Top.
  replace (e oOffHook nh) with false
    by (symmetry; rewrite <- (Nat.add_0_r nh); apply H).
  destruct (sleep_run e k d p c nr false (S nh) nd np
              (lg ++ [Read oOffHook false; Sleep; Led false; Led false;
                      PrintStr "Sleeping"])) as [evs [Hr Hk]].
  { intros i _. replace (S nh + i) with (nh + S i) by lia. apply H. }
  rewrite Hr. simpl. repeat split.
  - destruct k; reflexivity.
  - lia.
  - rewrite !kbd_calls_app, Hk. simpl. rewrite !app_nil_r. reflexivity.
Qed.

Lemma on_hook_stays_asleep_witness :
  pc (run on_hook (S 500) initial) = Sleeping /\
  kbd_calls (log (run on_hook (S 500) initial)) = kbd_calls (log initial).
Proof.
  pose proof (on_hook_stays_asleep on_hook initial eq_refl
                (fun i => eq_refl) 500) as H.
  split; [exact (proj1 H) | exact (proj2 (proj2 (proj2 (proj2 (proj2 (proj2 H))))))].
Defined.

(** Lines 125-126: the sleeping loop ends with the first hook sample that
    reads off-hook. *)
Lemma sleeping_loop (e : env) (m : nat) : forall d p c nr led nh nd np lg,
  agrees (e oOffHook) nh (repeat false m ++ [true]) ->
  exists evs,
    reaches e (mkState Sleeping d p false c nr led nh nd np lg)
      (mkState Sleeping d p true c nr true (nh + S m) nd np (lg ++ evs)) /\
    kbd_calls evs = [].
Proof.
  intros d p c nr led nh nd np lg H.
  apply agrees_app in H. destruct H as [Hlow Hhigh].
  apply agrees_cons in Hhigh. destruct Hhigh as [Hhigh _].
  rewrite repeat_length in Hhigh.
  destruct (sleep_run e m d p c nr led nh nd np lg) as [evs [Hr Hk]].
  { intros i Hi. apply Hlow. apply nth_error_repeat. exact Hi. }
  exists (evs ++ [Read oOffHook true; Sleep; Led true]). split.
  - eapply reaches_trans; [exists m; exact Hr|].
    apply reaches_step. rewrite step_Sleeping_on_hook, Hhigh.
    eapply reaches_eq; [apply reaches_refl|].
    rewrite <- app_assoc. f_equal. lia.
  - rewrite kbd_calls_app, Hk. reflexivity.
Qed.

(** Lines 122-126: from the head of the main loop, [m] on-hook samples and
    then an off-hook one lead to the test of the sleeping loop with the
    handset off the hook; nothing else is read and nothing is sent. *)
Lemma wake_up (e : env) (m : nat) (s : state) :
  pc s = Top ->
  agrees (e oOffHook) (nOffHook s) (repeat false m) ->
  (forall i, e oOffHook (nOffHook s + m + i) = true) ->
  exists s1,
    reaches e s s1 /\ pc s1 = Sleeping /\ offHook s1 = true /\
    nOffHook s1 = nOffHook s + m + 1 /\ nDialActive s1 = nDialActive s /\
    nDigitPulse s1 = nDigitPulse s /\ kbd_calls (log s1) = kbd_calls (log s).
Proof.
  destruct s as [l d p h c nr led nh nd np lg]; simpl.
  intros -> Hlow Hhigh.
  destruct m as [|m].
  - eexists. split; [apply reaches_step; rewrite step_Top; apply reaches_refl|].
    simpl. replace (e oOffHook nh) with true
      by (symmetry; specialize (Hhigh 0); rewrite !Nat.add_0_r in Hhigh;
          exact Hhigh).
    repeat split; [lia|]. rewrite kbd_calls_app. simpl. apply app_nil_r.
  - simpl in Hlow. apply agrees_cons in Hlow. destruct Hlow as [H0 Hlow].
    destruct (sleeping_loop e m d p c nr false (S nh) nd np
                (lg ++ [Read oOffHook false; Sleep; Led false; Led false;
                        PrintStr "Sleeping"])) as [evs [Hr Hk]].
    { apply agrees_app. split; [exact Hlow|].
      apply agrees_cons. split; [|apply agrees_nil].
      rewrite repeat_length. specialize (Hhigh 0).
      replace (S nh + m) with (nh + S m + 0) by lia. exact Hhigh. }
    eexists. split.
    + apply reaches_step. rewrite step_Top, H0. exact Hr.
    + simpl. repeat split; [lia|].
      rewrite !kbd_calls_app, Hk. simpl. rewrite !app_nil_r. reflexivity.
Qed.

(** Lines 122-156, a whole cycle from the head of the main loop: the hook
    reads on-hook [m] times and off-hook from then on, and one rotation is
    dialed whose keycode fits the byte of the HID report, so that
    [kbd.send] returns.  Whatever the globals held before, the keyboard is
    called once, with the pulses of the rotation plus [0x1d]; the hook
    samples taken while asleep cost no dial or pulse sample. *)
Theorem wake_then_rotation (e : env) (m : nat) (r : rotation) (s : state) :
  pc s = Top ->
  agrees (e oOffHook) (nOffHook s) (repeat false m) ->
  (forall i, e oOffHook (nOffHook s + m + i) = true) ->
  agrees (e oDialActive) (nDialActive s) (dial_samples r) ->
  agrees (e oDigitPulse) (nDigitPulse s) (pulse_line_samples r) ->
  fits_hid_byte (pulses r + 0x1d) ->
  exists s',
    reaches e s s' /\ pc s' = Top /\
    nDialActive s' = nDialActive s + length (dial_samples r) /\
    nDigitPulse s' = nDigitPulse s + length (pulse_line_samples r) /\
    digitCount s' = pulses r /\
    fits_hid_byte (digitCount s' + 0x1d) /\
    kbd_calls (log s') = kbd_calls (log s) ++ press_and_release (pulses r).
Proof.
  intros Hpc Hlow Hhigh Hd Hp Hfit.
  destruct (wake_up e m s Hpc Hlow Hhigh)
    as [s1 [Hr1 [Hpc1 [Hoff1 [Hnh1 [Hnd1 [Hnp1 Hk1]]]]]]].
  destruct (rotation_from_sleeping e r s1 Hpc1 Hoff1) as [s' Hs'].
  - intros i. rewrite Hnh1.
    replace (nOffHook s + m + 1 + i) with (nOffHook s + m + (1 + i)) by lia.
    apply Hhigh.
  - rewrite Hnd1. exact Hd.
  - rewrite Hnp1. exact Hp.
  - destruct Hs' as [Hr2 [Hpc2 [Hnd2 [Hnp2 [Hc2 Hk2]]]]].
    exists s'. split; [eapply reaches_trans; eassumption|].
    split; [exact Hpc2|]. split; [lia|]. split; [lia|].
    split; [exact Hc2|]. split; [rewrite Hc2; exact Hfit|].
    rewrite Hk2, Hk1. reflexivity.
Qed.

Lemma wake_then_rotation_witness :
  exists s',
    reaches asleep_then_three initial s' /\ pc s' = Top /\
    nDialActive s' = nDialActive initial + length (dial_samples three_pulses) /\
    nDigitPulse s' =
      nDigitPulse initial + length (pulse_line_samples three_pulses) /\
    digitCount s' = pulses three_pulses /\
    fits_hid_byte (digitCount s' + 0x1d) /\
    kbd_calls (log s') =
      kbd_calls (log initial) ++ press_and_release (pulses three_pulses).
Proof.
  apply (wake_then_rotation asleep_then_three 2 three_pulses initial).
  - reflexivity.
  - exact (agrees_line [false; false] true).
  - intros i. destruct i; reflexivity.
  - exact (agrees_line (dial_samples three_pulses) false).
  - exact (agrees_line (pulse_line_samples three_pulses) true).
  - split; vm_compute; discriminate.
Defined.

(** Lines 155-156 and 129: a hang-up seen at the end of a pass of the
    dialing loop, with the dial still active, throws the count away.
    Nothing is sent for the broken-off rotation, and when the handset is
    lifted again, after [m] on-hook samples, the next rotation sends its own
    pulses only.  The next rotation is one whose keycode fits the byte of
    the HID report, so that [kbd.send] returns. *)
Theorem hang_up_discards_count
    (e : env) (m : nat) (r : rotation) (s : state) :
  pc s = AfterPulse ->
  e oDialActive (nDialActive s) = true ->
  e oOffHook (nOffHook s) = false ->
  agrees (e oOffHook) (S (nOffHook s)) (repeat false m) ->
  (forall i, e oOffHook (S (nOffHook s) + m + i) = true) ->
  agrees (e oDialActive) (S (nDialActive s)) (dial_samples r) ->
  agrees (e oDigitPulse) (nDigitPulse s) (pulse_line_samples r) ->
  fits_hid_byte (pulses r + 0x1d) ->
  pc (step e s) = Top /\
  kbd_calls (log (step e s)) = kbd_calls (log s) /\
  exists s',
    reaches e s s' /\ pc s' = Top /\
    digitCount s' = pulses r /\
    fits_hid_byte (digitCount s' + 0x1d) /\
    kbd_calls (log s') = kbd_calls (log s) ++ press_and_release (pulses r).
Proof.
  destruct s as [l d p h c nr led nh nd np lg]; simpl.
  intros -> Hd Hh Hlow Hhigh Hdial Hpulse Hfit.
  rewrite step_AfterPulse, Hd, Hh. simpl.
  assert (Hk : kbd_calls
                 (lg ++ [Read oDialActive true; Read oOffHook false; Sleep;
                         Led false]) = kbd_calls lg).
  { rewrite kbd_calls_app. simpl. apply app_nil_r. }
  split; [reflexivity|]. split; [exact Hk|].
  set (s0 := mkState Top true p false c nr false (S nh) (S nd) np
               (lg ++ [Read oDialActive true; Read oOffHook false; Sleep;
                       Led false])).
  destruct (wake_up e m s0 eq_refl Hlow Hhigh)
    as [s1 [Hr1 [Hpc1 [Hoff1 [Hnh1 [Hnd1 [Hnp1 Hk1]]]]]]].
  simpl in Hnh1, Hnd1, Hnp1, Hk1.
  destruct (rotation_from_sleeping e r s1 Hpc1 Hoff1) as [s' Hs'].
  - intros i. rewrite Hnh1. rewrite <- (Hhigh (1 + i)). f_equal. simpl. lia.
  - rewrite Hnd1. exact Hdial.
  - rewrite Hnp1. exact Hpulse.
  - destruct Hs' as [Hr2 [Hpc2 [_ [_ [Hc2 Hk2]]]]].
    exists s'.
    split; [|split; [exact Hpc2 | split; [exact Hc2 | split]]].
    + apply reaches_step. rewrite step_AfterPulse, Hd, Hh.
      eapply reaches_trans; eassumption.
    + rewrite Hc2. exact Hfit.
    + rewrite Hk2, Hk1, Hk. reflexivity.
Qed.

Lemma hang_up_discards_count_witness :
  digitCount (run hang_up_then_redial 8 initial) = 1%Z /\
  exists s',
    reaches hang_up_then_redial (run hang_up_then_redial 8 initial) s' /\
    pc s' = Top /\
    digitCount s' = pulses three_pulses /\
    fits_hid_byte (digitCount s' + 0x1d) /\
    kbd_calls (log s') =
      kbd_calls (log (run hang_up_then_redial 8 initial))
        ++ press_and_release (pulses three_pulses).
Proof.
  split; [reflexivity|].
  apply (hang_up_discards_count hang_up_then_redial 0 three_pulses
           (run hang_up_then_redial 8 initial)).
  - reflexivity.
  - reflexivity.
  - reflexivity.
  - apply agrees_nil.
  - intros i. destruct i; reflexivity.
  - exact (agrees_line_app [true; true; true] (dial_samples three_pulses)
             false).
  - exact (agrees_line_app [false; true; true]
             (pulse_line_samples three_pulses) true).
  - split; vm_compute; discriminate.
Defined.

(** ** Invariants of every run *)

Lemma Forall_count_weaken (cs : list Z) (n n' : nat) :
  n <= n' ->
  Forall (fun c => (0 <= c <= Z.of_nat n)%Z) cs ->
  Forall (fun c => (0 <= c <= Z.of_nat n')%Z) cs.
Proof.
  intros Hn H. eapply Forall_impl; [|exact H]. simpl. intros c Hc. lia.
Qed.

Lemma concat_press_snoc (cs : list Z) (c : Z) :
  concat (map press_and_release (cs ++ [c])) =
  concat (map press_and_release cs) ++ press_and_release c.
Proof. rewrite map_app, concat_app. simpl. reflexivity. Qed.

Lemma kbd_inv_step (e : env) (s : state) (cs : list Z) :
  kbd_inv s cs ->
  kbd_inv (step e s) (if at_emission e s then cs ++ [digitCount s] else cs).
Proof.
  destruct s as [l d p h c nr led nh nd np lg].
  unfold kbd_inv, at_emission. simpl.
  intros [Hk [Hall [Hc Hnr]]].
  assert (Hall' : Forall (fun c => (0 <= c <= Z.of_nat (S np))%Z) cs)
    by (apply (Forall_count_weaken cs np (S np)); [lia | exact Hall]).
  step_cases l d p h; simpl; rewrite ?kbd_calls_app; simpl.
  - rewrite app_nil_r. repeat split; try assumption; lia.
  - rewrite app_nil_r. repeat split; try assumption; lia.
  - rewrite app_nil_r. repeat split; try assumption; lia.
  - rewrite app_nil_r. repeat split; try assumption; lia.
  - destruct (e oOffHook nh); simpl; rewrite !app_nil_r;
      repeat split; try assumption; lia.
  - rewrite app_nil_r.
    destruct (e oDigitPulse np); repeat split; try assumption; lia.
  - repeat split; try assumption; lia.
  - repeat split; try assumption; lia.
  - rewrite app_nil_r. repeat split; try assumption; lia.
  - rewrite kbd_calls_app, kbd_calls_emission. simpl.
    destruct (e oDialActive nd); simpl; rewrite ?app_nil_r.
    + repeat split; try assumption; lia.
    + rewrite concat_press_snoc, Hk. split; [reflexivity|]. split.
      * apply Forall_app. split; [exact Hall|]. constructor; [exact Hc|].
        constructor.
      * split; [exact Hc|]. symmetry. apply last_last.
Qed.

Lemma kbd_inv_run (e : env) (k : nat) :
  exists cs, kbd_inv (run e k initial) cs.
Proof.
  induction k as [|k [cs IH]].
  - exists []. unfold kbd_inv. simpl. repeat split; try lia. constructor.
  - rewrite run_S_last. eexists. apply kbd_inv_step. exact IH.
Qed.

Lemma keys_concat_press (cs : list Z) :
  keys (concat (map press_and_release cs)) = map (fun c => (c + 0x1d)%Z) cs.
Proof.
  induction cs as [|c cs IH]; simpl; [reflexivity | rewrite IH; reflexivity].
Qed.

Lemma last_map_Z (f : Z -> Z) (cs : list Z) (d : Z) :
  last (map f cs) (f d) = f (last cs d).
Proof.
  induction cs as [|c cs IH]; simpl; [reflexivity|].
  destruct cs as [|c' cs]; [reflexivity | exact IH].
Qed.

(** Lines 139-153, on every run in which the keycodes passed to [kbd.send]
    so far fit the byte of the HID report, so that every [kbd.send]
    returned: the keyboard has only been called in pairs, one [kbd.send]
    directly followed by one [kbd.release_all]; every keycode sent is a
    count plus [0x1d], where the count is at least 0, at most 226 and at
    most the number of pulse samples taken so far. *)
Theorem keyboard_calls_paired_and_bounded (e : env) (k : nat) :
  Forall fits_hid_byte (keys (log (run e k initial))) ->
  exists cs,
    kbd_calls (log (run e k initial)) =
      concat (map (fun c => [KbdSend (c + 0x1d)%Z; KbdReleaseAll]) cs) /\
    keys (log (run e k initial)) = map (fun c => (c + 0x1d)%Z) cs /\
    Forall (fun c => (0 <= c <= Z.of_nat (nDigitPulse (run e k initial)))%Z)
      cs /\
    Forall (fun c => (0 <= c <= 226)%Z) cs /\
    (0 <= digitCount (run e k initial)
       <= Z.of_nat (nDigitPulse (run e k initial)))%Z.
Proof.
  intros Hfit.
  destruct (kbd_inv_run e k) as [cs [Hk [Hall [Hc _]]]].
  assert (Hkeys : keys (log (run e k initial)) =
                  map (fun c => (c + 0x1d)%Z) cs)
    by (rewrite <- keys_kbd_calls, Hk; apply keys_concat_press).
  exists cs. split; [exact Hk|]. split; [exact Hkeys|].
  split; [exact Hall|]. split; [|exact Hc].
  rewrite Hkeys in Hfit.
  rewrite Forall_forall in Hall, Hfit. apply Forall_forall. intros c Hin.
  specialize (Hall c Hin).
  specialize (Hfit (c + 0x1d)%Z
                (in_map (fun c => (c + 0x1d)%Z) cs c Hin)).
  unfold fits_hid_byte in Hfit. lia.
Qed.

Lemma keyboard_calls_paired_and_bounded_witness :
  keys (log (run (session [five_pulses; seven_pulses]) 80 initial)) =
    [34%Z; 36%Z] /\
  exists cs,
    kbd_calls (log (run (session [five_pulses; seven_pulses]) 80 initial)) =
      concat (map (fun c => [KbdSend (c + 0x1d)%Z; KbdReleaseAll]) cs) /\
    keys (log (run (session [five_pulses; seven_pulses]) 80 initial)) =
      map (fun c => (c + 0x1d)%Z) cs /\
    Forall
      (fun c =>
         (0 <= c <= Z.of_nat
                      (nDigitPulse
                         (run (session [five_pulses; seven_pulses]) 80
                            initial)))%Z) cs /\
    Forall (fun c => (0 <= c <= 226)%Z) cs /\
    (0 <= digitCount (run (session [five_pulses; seven_pulses]) 80 initial)
       <= Z.of_nat
            (nDigitPulse
               (run (session [five_pulses; seven_pulses]) 80 initial)))%Z.
Proof.
  split; [vm_compute; reflexivity|].
  apply (keyboard_calls_paired_and_bounded
           (session [five_pulses; seven_pulses]) 80).
  replace (keys (log (run (session [five_pulses; seven_pulses]) 80 initial)))
    with [34%Z; 36%Z] by (vm_compute; reflexivity).
  constructor; [split; vm_compute; discriminate|].
  constructor; [split; vm_compute; discriminate|]. constructor.
Defined.

(** Lines 148-152, on every input: [numberToReturn] holds the count of the
    last keystroke sent, and 0 as long as none was sent. *)
Theorem numberToReturn_is_last_sent (e : env) (k : nat) :
  (numberToReturn (run e k initial) + 0x1d)%Z =
  last (keys (log (run e k initial))) 0x1d%Z.
Proof.
  destruct (kbd_inv_run e k) as [cs [Hk [_ [_ Hnr]]]].
  rewrite <- keys_kbd_calls, Hk, keys_concat_press, Hnr.
  symmetry. apply (last_map_Z (fun c => (c + 0x1d)%Z) cs 0%Z).
Qed.

Lemma keys_step (e : env) (s : state) :
  keys (log (step e s)) =
  keys (log s) ++
    (if at_emission e s then [(digitCount s + 0x1d)%Z] else []).
Proof.
  rewrite <- keys_kbd_calls, step_kbd_calls, keys_app, keys_kbd_calls.
  destruct (at_emission e s); reflexivity.
Qed.

Lemma loop_inv_step (e : env) (s : state) : loop_inv s -> loop_inv (step e s).
Proof.
  unfold loop_inv. intros [Hn [Hlow [Hafter [Hwait Hled]]]].
  rewrite keys_step. unfold at_emission.
  destruct s as [l d p h c nr led nh nd np lg]. simpl in *.
  step_cases l d p h; simpl;
    try specialize (Hlow eq_refl); try specialize (Hafter eq_refl);
    try specialize (Hwait eq_refl);
    repeat match goal with H : _ /\ _ |- _ => destruct H end; subst;
    repeat match goal with |- context [e ?q ?n] => destruct (e q n) end;
    simpl in *; rewrite ?app_nil_r, ?length_app; simpl;
    repeat split; try discriminate; try reflexivity; try assumption; lia.
Qed.

Lemma loop_inv_run (e : env) (k : nat) : loop_inv (run e k initial).
Proof.
  induction k as [|k IH].
  - unfold loop_inv. simpl. repeat split; try discriminate; lia.
  - rewrite run_S_last. apply loop_inv_step. exact IH.
Qed.

(** Lines 130-153, on every input: a keystroke needs a sample of the
    dial-active line that reads true and a later one that reads false, so
    the number of keystrokes sent is at most half the number of dial-active
    samples taken. *)
Theorem keystrokes_need_dial_samples (e : env) (k : nat) :
  2 * length (keys (log (run e k initial))) <= nDialActive (run e k initial).
Proof.
  destruct (loop_inv_run e k) as [Hn _]. lia.
Qed.

(** Lines 139-146, on every input: when the program gets to line 146, where
    it may send a keystroke, the pulse line was last read high and the dial
    had been read active; the wait of lines 143-144 is only entered with
    the dial read active. *)
Theorem emission_point_state (e : env) (k : nat) :
  (pc (run e k initial) = AfterPulse ->
     dialActive (run e k initial) = true /\
     digitPulse (run e k initial) = true) /\
  (pc (run e k initial) = PulseLow -> dialActive (run e k initial) = true).
Proof.
  destruct (loop_inv_run e k) as [_ [Hlow [Hafter _]]].
  split; assumption.
Qed.

Lemma emission_point_state_witness :
  pc (run (session [three_pulses]) 9 initial) = AfterPulse /\
  dialActive (run (session [three_pulses]) 9 initial) = true /\
  digitPulse (run (session [three_pulses]) 9 initial) = true.
Proof.
  split; [reflexivity|].
  apply (proj1 (emission_point_state (session [three_pulses]) 9)).
  reflexivity.
Defined.

(** Lines 125-135, on every input: the test of the waiting loop is only
    reached with the handset last sampled off the hook and with
    [digitCount] at 0. *)
Theorem waiting_loop_state (e : env) (k : nat) :
  pc (run e k initial) = WaitingToDial ->
  offHook (run e k initial) = true /\ digitCount (run e k initial) = 0%Z.
Proof.
  destruct (loop_inv_run e k) as [_ [_ [_ [Hwait _]]]]. exact Hwait.
Qed.

Lemma waiting_loop_state_witness :
  pc (run hang_up_then_redial 11 initial) = WaitingToDial /\
  digitCount (run hang_up_then_redial 8 initial) = 1%Z /\
  offHook (run hang_up_then_redial 11 initial) = true /\
  digitCount (run hang_up_then_redial 11 initial) = 0%Z.
Proof.
  split; [reflexivity|]. split; [reflexivity|].
  apply (waiting_loop_state hang_up_then_redial 11). reflexivity.
Defined.

(** Lines 112, 122-123, 126, 134, 155, on every input: the global [offHook]
    and the LED always hold the same value, so the write of line 123 never
    changes the LED and every loop test on [offHook] tests what the LED
    shows. *)
Theorem offHook_is_led (e : env) (k : nat) :
  offHook (run e k initial) = oStatusLed (run e k initial).
Proof.
  destruct (loop_inv_run e k) as [_ [_ [_ [_ Hled]]]]. exact Hled.
Qed.

Lemma rest_inv_step (e : env) (s : state) :
  e oDialActive (nDialActive s) = false -> rest_inv s -> rest_inv (step e s).
Proof.
  unfold rest_inv.
  destruct s as [l d p h c nr led nh nd np lg]. simpl.
  intros Hd [-> [Hlow [Hafter [Hk ->]]]].
  destruct l; try (exfalso; congruence).
  - rewrite step_Top. simpl. rewrite kbd_calls_app, Hk.
    repeat split; discriminate.
  - destruct h.
    + rewrite step_Sleeping_off_hook, Hd. simpl. rewrite kbd_calls_app, Hk.
      repeat split; discriminate.
    + rewrite step_Sleeping_on_hook. simpl. rewrite kbd_calls_app, Hk.
      repeat split; discriminate.
  - rewrite step_WaitingToDial_idle, Hd. simpl. rewrite kbd_calls_app, Hk.
    destruct (e oOffHook nh); repeat split; discriminate.
  - rewrite step_DialIsActive_done. simpl. rewrite Hk.
    repeat split; discriminate.
Qed.

(** Lines 130-138, whatever the hook and pulse lines do: as long as the
    dial-active line reads false, the dialing loop is never entered, the
    pulse line is never sampled and nothing is sent.  Lifting the handset
    and putting it down again without turning the dial types nothing. *)
Theorem dial_at_rest_sends_nothing (e : env) :
  (forall i, e oDialActive i = false) ->
  forall k,
    kbd_calls (log (run e k initial)) = [] /\
    nDigitPulse (run e k initial) = 0 /\
    dialActive (run e k initial) = false /\
    pc (run e k initial) <> PulseLow /\
    pc (run e k initial) <> AfterPulse.
Proof.
  intros Hd k.
  assert (H : rest_inv (run e k initial)).
  { induction k as [|k IH].
    - unfold rest_inv. simpl. repeat split; discriminate.
    - rewrite run_S_last. apply rest_inv_step; [apply Hd | exact IH]. }
  destruct H as [H1 [H2 [H3 [H4 H5]]]]. repeat split; assumption.
Qed.

Lemma dial_at_rest_sends_nothing_witness :
  nOffHook (run dial_at_rest 40 initial) = 36 /\
  kbd_calls (log (run dial_at_rest 40 initial)) = [] /\
  nDigitPulse (run dial_at_rest 40 initial) = 0.
Proof.
  split; [reflexivity|].
  pose proof (dial_at_rest_sends_nothing dial_at_rest (fun i => eq_refl) 40)
    as H.
  split; [exact (proj1 H) | exact (proj1 (proj2 H))].
Defined.

Lemma printed_ints_app (t1 t2 : list event) :
  printed_ints (t1 ++ t2) = printed_ints t1 ++ printed_ints t2.
Proof.
  induction t1 as [|ev t1 IH]; simpl; [reflexivity|].
  destruct ev; simpl; rewrite ?IH; reflexivity.
Qed.

Lemma printed_ints_step (e : env) (s : state) :
  printed_ints (log (step e s)) =
  printed_ints (log s) ++ (if at_emission e s then [digitCount s] else []).
Proof.
  destruct s as [l d p h c nr led nh nd np lg]. unfold at_emission. simpl pc.
  step_cases l d p h; simpl; rewrite ?printed_ints_app; simpl;
    repeat match goal with |- context [e ?q ?n] => destruct (e q n) end;
    simpl; rewrite ?app_nil_r; reflexivity.
Qed.

(** Lines 148-152, on every input: the diagnostic output and the keyboard
    agree.  Line 151 prints one number per keystroke, in the same order,
    and the keycode sent is the number printed plus [0x1d]; so the number
    printed for a dialed 0 is 10. *)
Theorem printed_number_is_count_sent (e : env) (k : nat) :
  keys (log (run e k initial)) =
  map (fun n => (n + 0x1d)%Z) (printed_ints (log (run e k initial))).
Proof.
  induction k as [|k IH]; [reflexivity|].
  rewrite run_S_last, keys_step, printed_ints_step, map_app, IH.
  destruct (at_emission e (run e k initial)); reflexivity.
Qed.
